(** * cupy/random/_bit_generator.pyx

    A shallow embedding of the host-side orchestration in
    [cupy/random/_bit_generator.pyx]: the bit generators that own a block of
    device memory, and the [Generator] facade that splits an output array
    into chunks and launches one external kernel per chunk.

    Python integers are [Z].  The device runtime is an explicit [World]
    (active device, current stream, device heap, and the ordered log of
    every interaction with the runtime); each method is a function in a
    state-and-exception monad over it. *)

From stdpp Require Import base numbers list list_numbers strings.

Open Scope Z_scope.

(** ** Exceptions *)

Inductive exn :=
| RuntimeError (msg : string)
| NotImplementedError (msg : string)
| ValueError_uint64_range (actual : Z)   (* line 127 *)
| ValueError_negative_dimensions        (* ndarray(shape) with a negative entry *)
| ValueError_broadcast                  (* out[...] = y with incompatible shapes *)
| OverflowError                         (* Python int -> C integer coercion *)
| ValueError_nan                        (* int(x) of a float that is a NaN *)
| IndexError                            (* slicing a 0-dimensional array *)
| TypeError
| ZeroDivisionError.

Inductive result (A : Type) :=
| Ok (a : A)
| Raise (e : exn).
Arguments Ok {A} a.
Arguments Raise {A} e.

(** ** Data *)

(** [cdef enum _RandGenerators] (lines 21-24). *)
Inductive RandGenerators := CURAND_XOR_WOW | CURAND_MRG32k3a | CURAND_PHILOX_4x32_10.

Inductive dtype := int8 | int32 | uint32 | uint64 | float32 | float64.

Global Instance dtype_eq_dec : EqDecision dtype.
Proof. solve_decision. Defined.

(** What one element of device memory holds.  The numeric kernels are
    opaque, so what they write is kept symbolic: [Sample j k] is the [k]-th
    element written by the invocation logged at position [j]. *)
Inductive value :=
| Garbage                       (* allocated, never written *)
| Zero
| Opaque                        (* generator state after a kernel ran on it *)
| Sample (j : nat) (k : nat)
| Plus (c : Z) (v : value)      (* c + v *)
| Cast (d : dtype) (v : value).

Record allocation := mk_allocation {
  a_dtype : dtype;
  a_data : list value;
}.

(** A device address: an allocation and an element offset into it. *)
Record devptr := mk_devptr {
  p_alloc : nat;
  p_off : Z;
}.

(** A C-contiguous [ndarray]; two arrays with the same [nd_alloc] share
    memory. *)
Record ndarray := mk_ndarray {
  nd_alloc : nat;
  nd_off : Z;
  nd_shape : list Z;
  nd_dtype : dtype;
}.

(** Arguments forwarded through [*args], and what reaches the C side.  A
    float is kept as its IEEE-754 binary64 encoding. *)
Inductive pyobj := PyInt (z : Z) | PyFloat (bits : Z).
Inductive ctype := c_uint32 | c_uint64 | c_double.
Inductive cvalue :=
| CUInt32 (z : Z)
| CUInt64 (z : Z)
| CDouble (x : pyobj).           (* the double PyFloat_AsDouble yields for x *)

(** The sampling kernels declared in the [cdef extern] block
    (lines 27-30). *)
Module cupy_distributions.
Inductive kernel := interval_32 | interval_64 | beta | exponential.

(** The parameters that follow [stream] in each prototype. *)
Definition extra_params (f : kernel) : list ctype :=
  match f with
  | interval_32 => [c_uint32; c_uint32]
  | interval_64 => [c_uint64; c_uint64]
  | beta => [c_double; c_double]
  | exponential => []
  end.
End cupy_distributions.
Import cupy_distributions.

Record launch := mk_launch {
  k_func : kernel;
  k_generator : RandGenerators;
  k_state : devptr;
  k_out : devptr;
  k_size : Z;
  k_stream : Z;
  k_args : list cvalue;
}.

Inductive fill := Uninitialised | Zeroed.

(** One entry per interaction with the device runtime or with a lock. *)
Inductive event :=
| Alloc (id : nat) (d : dtype) (n : Z) (f : fill)
| InitCall (generator : RandGenerators) (state_ptr : devptr)
           (seed : Z) (size : Z) (stream : Z)       (* init_curand_generator *)
| KernelCall (l : launch)
| LockAcquire (lock : nat)
| LockRelease (lock : nat).

Record World := mk_World {
  current_device : Z;      (* cupy.cuda.Device().id *)
  current_stream : Z;      (* stream.get_current_stream_ptr() *)
  heap : list allocation;  (* position = identity of the allocation *)
  locks : nat;             (* lock objects created so far *)
  trace : list event;      (* oldest first *)
}.

Definition set_heap (h : list allocation) (w : World) : World :=
  mk_World (current_device w) (current_stream w) h (locks w) (trace w).

Definition log (e : event) (w : World) : World :=
  mk_World (current_device w) (current_stream w) (heap w) (locks w) (trace w ++ [e]).

(** ** The monad *)

Definition M (A : Type) : Type := World -> result A * World.

Definition ret {A} (a : A) : M A := fun w => (Ok a, w).
Definition raise {A} (e : exn) : M A := fun w => (Raise e, w).
Definition bind {A B} (m : M A) (k : A -> M B) : M B :=
  fun w => match m w with
           | (Ok a, w') => k a w'
           | (Raise e, w') => (Raise e, w')
           end.
Definition lift {A} (r : result A) : M A := fun w => (r, w).

Notation "x <- m ;; k" := (bind m (fun x => k))
  (at level 100, m at next level, right associativity).
Notation "m ;;; k" := (bind m (fun _ => k))
  (at level 100, right associativity).

(** [for i in l: body(i)] *)
Fixpoint for_each {A} (l : list A) (body : A -> M unit) : M unit :=
  match l with
  | [] => ret tt
  | i :: l' => body i ;;; for_each l' body
  end.

(** [range(n)]: empty when [n <= 0]. *)
Definition range (n : Z) : list Z := seqZ 0 n.

(** ** Python and Cython integer operations *)

Definition _UINT32_MAX : Z := 0xffffffff.
Definition _UINT64_MAX : Z := 0xffffffffffffffff.

(** [int.bit_length]: bits of the magnitude, 0 for 0. *)
Definition bit_length (x : Z) : Z :=
  if x =? 0 then 0 else Z.log2 (Z.abs x) + 1.

(** [a // b] *)
Definition floordiv (a b : Z) : result Z :=
  if b =? 0 then Raise ZeroDivisionError else Ok (a / b).

(** Coercion of a Python int to a C unsigned type: Cython raises
    [OverflowError] for a negative or too large value, it does not wrap. *)
Definition to_unsigned (bits : Z) (z : Z) : result Z :=
  if (0 <=? z) && (z <? 2 ^ bits) then Ok z else Raise OverflowError.
Definition to_uint32_t := to_unsigned 32.
Definition to_uint64_t := to_unsigned 64.

(** Coercion to [ssize_t]. *)
Definition to_ssize_t (z : Z) : result Z :=
  if (- 2 ^ 63 <=? z) && (z <? 2 ^ 63) then Ok z else Raise OverflowError.

(** Largest magnitude a Python int may have and still convert to a double. *)
Definition double_int_limit : Z := 2 ^ 1024 - 2 ^ 970.

(** [float.__int__] for the double whose IEEE-754 binary64 encoding is
    [bits] (read modulo [2^64]): truncation toward zero, [ValueError] for a
    NaN and [OverflowError] for an infinity. *)
Definition float_to_int (bits : Z) : result Z :=
  let b := bits mod 2 ^ 64 in
  let e := Z.land (Z.shiftr b 52) 0x7ff in
  let m := Z.land b (2 ^ 52 - 1) in
  if e =? 0x7ff then
    if m =? 0 then Raise OverflowError else Raise ValueError_nan
  else
    let mant := if e =? 0 then m else 2 ^ 52 + m in
    let t := Z.shiftl mant (Z.max e 1 - 1075) in
    Ok (if Z.testbit b 63 then - t else t).

(** The Python int a C integer parameter is converted from: Cython takes
    an int as it is and sends any other number through its [__int__]. *)
Definition as_int (x : pyobj) : result Z :=
  match x with
  | PyInt z => Ok z
  | PyFloat bits => float_to_int bits
  end.

Definition coerce (t : ctype) (x : pyobj) : result cvalue :=
  match t with
  | c_uint32 =>
      match as_int x with
      | Ok z => match to_uint32_t z with Ok v => Ok (CUInt32 v) | Raise e => Raise e end
      | Raise e => Raise e
      end
  | c_uint64 =>
      match as_int x with
      | Ok z => match to_uint64_t z with Ok v => Ok (CUInt64 v) | Raise e => Raise e end
      | Raise e => Raise e
      end
  | c_double =>
      match x with
      | PyInt z =>
          if Z.abs z <? double_int_limit then Ok (CDouble x) else Raise OverflowError
      | PyFloat _ => Ok (CDouble x)
      end
  end.

(** One coercion per declared parameter, left to right. *)
Fixpoint coerce_each (ts : list ctype) (xs : list pyobj) : result (list cvalue) :=
  match ts, xs with
  | [], [] => Ok []
  | t :: ts', x :: xs' =>
      match coerce t x with
      | Ok v => match coerce_each ts' xs' with
                | Ok vs => Ok (v :: vs)
                | Raise e => Raise e
                end
      | Raise e => Raise e
      end
  | _, _ => Raise TypeError
  end.

(** Argument parsing of the Python wrapper Cython builds around a C
    function that is passed as an object: the number of arguments is
    checked first, a wrong count being a [TypeError]; then the values are
    coerced. *)
Definition coerce_args (ts : list ctype) (xs : list pyobj) : result (list cvalue) :=
  if (length xs =? length ts)%nat then coerce_each ts xs else Raise TypeError.

(** ** Device memory and arrays

    [ndarray], [cupy.zeros], the current device and the current stream
    come from other modules of cupy.  They are modelled as far as this
    file uses them: C-contiguous arrays over a heap of allocations, with
    NumPy's rules for basic slicing and for assignment with
    broadcasting. *)

Definition get_current_stream_ptr : M Z := fun w => (Ok (current_stream w), w).
Definition Device_id : M Z := fun w => (Ok (current_device w), w).

(** [ndarray.size]: the number of elements. *)
Definition prod_shape (s : list Z) : Z := foldr Z.mul 1 s.
Definition nd_size (a : ndarray) : Z := prod_shape (nd_shape a).

(** [a.data.ptr] *)
Definition data_ptr (a : ndarray) : devptr := mk_devptr (nd_alloc a) (nd_off a).

Definition initial (f : fill) : value :=
  match f with Zeroed => Zero | Uninitialised => Garbage end.

Definition device_alloc (d : dtype) (n : Z) (f : fill) : M nat :=
  fun w =>
    let id := length (heap w) in
    let cell := mk_allocation d (replicate (Z.to_nat n) (initial f)) in
    (Ok id, log (Alloc id d n f) (set_heap (heap w ++ [cell]) w)).

(** [ndarray(shape, dtype)] (uninitialised) and [cupy.zeros(shape, dtype)]. *)
Definition ndarray_new (shape : list Z) (d : dtype) (f : fill) : M ndarray :=
  if existsb (fun n => n <? 0) shape then raise ValueError_negative_dimensions
  else id <- device_alloc d (prod_shape shape) f ;;
       ret (mk_ndarray id 0 shape d).

Definition cupy_zeros (n : Z) (d : dtype) : M ndarray := ndarray_new [n] d Zeroed.

(** [size if size is not None else ()], with an int [n] standing for [(n,)]. *)
Definition shape_arg (size : option (list Z)) : list Z :=
  match size with Some s => s | None => [] end.

(** Where a slice [[k:]] of an axis of extent [d0] starts: a negative [k]
    counts from the end, and the result is clamped to [[0, d0]]. *)
Definition slice_start (k d0 : Z) : Z :=
  if k <? 0 then Z.max 0 (k + d0) else Z.min k d0.

(** Basic slicing [a[k:]]: a view on the first axis from [k] on, sharing
    the memory of [a]; a 0-dimensional array cannot be sliced. *)
Definition getitem_from (a : ndarray) (k : Z) : result ndarray :=
  match nd_shape a with
  | [] => Raise IndexError
  | d0 :: rest =>
      let start := slice_start k d0 in
      Ok (mk_ndarray (nd_alloc a) (nd_off a + start * prod_shape rest)
                     ((d0 - start) :: rest) (nd_dtype a))
  end.

(** Overwrite [data] from position [off] on with [vals]; the part of a
    write that falls outside the buffer is dropped, a buffer never grows. *)
Definition write_range (off : nat) (vals data : list value) : list value :=
  take (length data) (take off data ++ vals ++ drop (off + length vals) data).

Definition store (p : devptr) (vals : list value) (h : list allocation) : list allocation :=
  alter (fun al => mk_allocation (a_dtype al)
                     (write_range (Z.to_nat (p_off p)) vals (a_data al)))
        (p_alloc p) h.

(** A kernel that receives a state pointer advances the streams kept
    there. *)
Definition touch (p : devptr) (h : list allocation) : list allocation :=
  alter (fun al => mk_allocation (a_dtype al) (replicate (length (a_data al)) Opaque))
        (p_alloc p) h.

(** The elements an array views, in C order. *)
Definition read (a : ndarray) (h : list allocation) : list value :=
  match h !! nd_alloc a with
  | Some al => take (Z.to_nat (nd_size a)) (drop (Z.to_nat (nd_off a)) (a_data al))
  | None => []
  end.

(** ** The external kernels, seen from the host *)

(** [init_curand_generator(generator, state_ptr, seed, size, stream)] *)
Definition init_curand_generator (generator : RandGenerators) (state_ptr : devptr)
    (seed size strm : Z) : M unit :=
  fun w => (Ok tt, log (InitCall generator state_ptr seed size strm)
                       (set_heap (touch state_ptr (heap w)) w)).

(** A sampling kernel writes [k_size] elements from [k_out] on. *)
Definition kernel_effect (j : nat) (l : launch) (h : list allocation) : list allocation :=
  store (k_out l) (Sample j <$> seq 0 (Z.to_nat (k_size l))) (touch (k_state l) h).

Definition after_launch (l : launch) (w : World) : World :=
  log (KernelCall l) (set_heap (kernel_effect (length (trace w)) l (heap w)) w).

Definition run_kernel (l : launch) : M unit :=
  fun w => (Ok tt, after_launch l w).

(** [func(generator, state, out, size, stream, *args)] where [func] is one
    of the C kernels passed around as a Python object.  The five leading
    arguments are an enum value, device addresses and an array size, which
    always fit their C types; the trailing ones are coerced to the types
    of the prototype. *)
Definition call (func : kernel) (generator : RandGenerators) (state out : devptr)
    (size strm : Z) (args : list pyobj) : M unit :=
  cargs <- lift (coerce_args (extra_params func) args) ;;
  run_kernel (mk_launch func generator state out size strm cargs).

(** ** Assignment and arithmetic on arrays *)

Definition chunk_list (m : nat) : nat -> list value -> list (list value) :=
  fix go d data :=
    match d with
    | O => []
    | S d' => take m data :: go d' (drop m data)
    end.

(** NumPy broadcasting of the elements [data] of an array of shape [src]
    to shape [dst]: axes are aligned from the right, and every axis of
    [src] has either the extent of the one of [dst] or extent 1. *)
Fixpoint broadcast_to (src dst : list Z) (data : list value) : option (list value) :=
  match dst with
  | [] => match src with [] => Some data | _ :: _ => None end
  | d :: dst' =>
      if (length src <? length dst)%nat then
        inner ← broadcast_to src dst' data;
        Some (concat (replicate (Z.to_nat d) inner))
      else
        match src with
        | [] => None
        | s :: src' =>
            if s =? d then
              rows ← mapM (broadcast_to src' dst')
                          (chunk_list (Z.to_nat (prod_shape src')) (Z.to_nat d) data);
              Some (concat rows)
            else if s =? 1 then
              inner ← broadcast_to src' dst' data;
              Some (concat (replicate (Z.to_nat d) inner))
            else None
        end
  end.

Definition cast_to (d_to d_from : dtype) (v : value) : value :=
  if decide (d_to = d_from) then v else Cast d_to v.

(** [out[...] = y] *)
Definition setitem_ellipsis (out y : ndarray) : M unit :=
  fun w =>
    match broadcast_to (nd_shape y) (nd_shape out) (read y (heap w)) with
    | Some vals =>
        (Ok tt, set_heap (store (data_ptr out)
                                (cast_to (nd_dtype out) (nd_dtype y) <$> vals)
                                (heap w)) w)
    | None => (Raise ValueError_broadcast, w)
    end.

(** Modelled from the spec: [low + y] of ndarray, whose code is in
    cupy/core and not in this file.  "Result = low + sampledOffsets
    (elementwise), returned as a fresh array of the computed width". *)
Definition add_scalar (low : Z) (y : ndarray) : M ndarray :=
  r <- ndarray_new (nd_shape y) (nd_dtype y) Uninitialised ;;
  fun w => (Ok r, set_heap (store (data_ptr r) (Plus low <$> read y (heap w)) (heap w)) w).

(** ** Bit generators *)

(** Modelled from the spec: the sizes of the three cuRAND state structs,
    which the [cdef extern] block declares without a body (lines 14-19),
    so that [sizeof] of them is not in this file.  "For all supported
    algorithm tags, perStreamStateBytes(tag) > 0": the size of a C++ class
    is a positive number of bytes.  With them, numpy's seed expansion
    [SeedSequence(seed).generate_state(1, numpy.uint64)[0]]; a seed is
    [None], an int [n] (as [[n]]) or a sequence of ints. *)
Record externals := mk_externals {
  sizeof_curandState : positive;
  sizeof_curandStateMRG32k3a : positive;
  sizeof_curandStatePhilox4_32_10_t : positive;
  generate_state : option (list Z) -> Z;
}.

(** [threading.Lock()]: a new, unlocked lock. *)
Definition threading_Lock : M nat :=
  fun w => (Ok (locks w),
            mk_World (current_device w) (current_stream w) (heap w)
                     (S (locks w)) (trace w)).

Module BitGenerator.
Record t := mk {
  lock : nat;
  _seed_seq : option (list Z);
  _current_device : Z;
}.

Definition __init__ (seed : option (list Z)) : M t :=
  lock <- threading_Lock ;;
  dev <- Device_id ;;
  ret (mk lock seed dev).

Definition state_size (self : t) : Z := 0.

Definition _check_device (self : t) : M unit :=
  id <- Device_id ;;
  if negb (id =? _current_device self)
  then raise (RuntimeError
                "This Generator state has been allocated in a different device")
  else ret tt.
End BitGenerator.

(** The three concrete subclasses of [_cuRANDGenerator] (lines 89-106). *)
Inductive bitgen_class := XORWOW | MRG32k3a | Philox4x3210.

Definition generator (c : bitgen_class) : RandGenerators :=
  match c with
  | XORWOW => CURAND_XOR_WOW
  | MRG32k3a => CURAND_MRG32k3a
  | Philox4x3210 => CURAND_PHILOX_4x32_10
  end.

Definition _type_size (ext : externals) (c : bitgen_class) : Z :=
  match c with
  | XORWOW => Z.pos (sizeof_curandState ext)
  | MRG32k3a => Z.pos (sizeof_curandStateMRG32k3a ext)
  | Philox4x3210 => Z.pos (sizeof_curandStatePhilox4_32_10_t ext)
  end.

Module _cuRANDGenerator.
Record t := mk {
  class : bitgen_class;
  base : BitGenerator.t;
  _seed : Z;
  _size : Z;
  _state : ndarray;
}.

Definition default_size : Z := 1024 * 100.

(** [b_size] is a [cdef ssize_t], [c_seed] a [cdef uint64_t], and the
    arguments of the C call are coerced to the types of its prototype
    (line 26). *)
Definition __init__ (ext : externals) (c : bitgen_class)
    (seed : option (list Z)) (size : Z) : M t :=
  base <- BitGenerator.__init__ seed ;;
  let _seed := generate_state ext (BitGenerator._seed_seq base) in
  b_size <- lift (to_ssize_t (_type_size ext c * size)) ;;
  _state <- cupy_zeros b_size int8 ;;
  let state_ptr := data_ptr _state in
  c_seed <- lift (to_uint64_t _seed) ;;
  _strm <- get_current_stream_ptr ;;
  seed_arg <- lift (to_uint64_t _seed) ;;
  size_arg <- lift (to_ssize_t size) ;;
  init_curand_generator (generator c) state_ptr seed_arg size_arg _strm ;;;
  ret (mk c base _seed size _state).

Definition state (self : t) : M devptr :=
  BitGenerator._check_device (base self) ;;;
  ret (data_ptr (_state self)).

Definition state_size (self : t) : Z := _size self.
End _cuRANDGenerator.

(** ** The sampling facade *)

Module Generator.
(** The dispatcher calls [state()] and reads [generator] on the bit
    generator; of the classes of this file only the subclasses of
    [_cuRANDGenerator] have both, so these are the bit generators a
    [Generator] is modelled with. *)
Record t := mk { _bit_generator : _cuRANDGenerator.t }.

Definition _launch_distribution_kernel (self : t) (func : kernel)
    (out : ndarray) (args : list pyobj) : M unit :=
  strm <- get_current_stream_ptr ;;
  state <- _cuRANDGenerator.state (_bit_generator self) ;;
  let y_ptr := data_ptr out in
  let generator := generator (_cuRANDGenerator.class (_bit_generator self)) in
  let bsize := _cuRANDGenerator.state_size (_bit_generator self) in
  if bsize =? 0 then
    call func generator state y_ptr (nd_size out) strm args
  else
    chunks <- lift (floordiv (nd_size out + bsize - 1) bsize) ;;
    for_each (range chunks) (fun i =>
      chunk <- lift (getitem_from out (i * bsize)) ;;
      let y_ptr := data_ptr chunk in
      call func generator state y_ptr (nd_size chunk) strm args).

(** [mask] is declared [cdef uint64_t] (line 120): the Python int on the
    right is coerced when it is assigned, before the comparisons of
    lines 122-128 run. *)
Definition integers (self : t) (low high : Z) (size : option (list Z))
    (dtype : dtype) (endpoint : bool) : M ndarray :=
  let diff := high - low in
  let diff := if negb endpoint then diff - 1 else diff in
  mask <- lift (to_uint64_t (Z.shiftl 1 (bit_length diff) - 1)) ;;
  dtype <- (if diff <=? _UINT32_MAX then ret uint32
            else if diff <=? _UINT64_MAX then ret uint64
            else raise (ValueError_uint64_range diff)) ;;
  y <- ndarray_new (shape_arg size) dtype Uninitialised ;;
  (if decide (dtype = uint32)
   then _launch_distribution_kernel self interval_32 y [PyInt diff; PyInt mask]
   else _launch_distribution_kernel self interval_64 y [PyInt diff; PyInt mask]) ;;;
  add_scalar low y.

Definition beta (self : t) (a b : pyobj) (size : option (list Z))
    (dtype : dtype) : M ndarray :=
  y <- ndarray_new (shape_arg size) dtype Uninitialised ;;
  _launch_distribution_kernel self cupy_distributions.beta y [a; b] ;;;
  ret y.

Definition standard_exponential (self : t) (size : option (list Z))
    (dtype : dtype) (method : string) (out : option ndarray) : M ndarray :=
  if String.eqb method "zig" then
    raise (NotImplementedError "Ziggurat method is not supported")
  else
    y <- ndarray_new (shape_arg size) dtype Uninitialised ;;
    _launch_distribution_kernel self exponential y [] ;;;
    match out with
    | Some out => setitem_ellipsis out y ;;; ret out
    | None => ret y
    end.
End Generator.

(** ** Vocabulary of the statements *)

(** Every allocation of [h] is still there in [h'], with its element type
    and its length. *)
Definition sizes_kept (h h' : list allocation) : Prop :=
  forall i al, h !! i = Some al ->
    exists al', h' !! i = Some al' /\ a_dtype al' = a_dtype al
                /\ length (a_data al') = length (a_data al).

(** [w'] is [w] some steps later: same device and stream, a longer log
    whose new entries all satisfy [P], and a heap that only grew. *)
Record evolves (P : event -> Prop) (w w' : World) : Prop := mk_evolves {
  ev_device : current_device w' = current_device w;
  ev_stream : current_stream w' = current_stream w;
  ev_trace : exists evs, trace w' = trace w ++ evs /\ Forall P evs;
  ev_heap : sizes_kept (heap w) (heap w');
}.

Definition respects {A} (P : event -> Prop) (m : M A) : Prop :=
  forall w, evolves P w (m w).2.

(** Every exception [m] can end in satisfies [E]. *)
Definition raises_only {A} (E : exn -> Prop) (m : M A) : Prop :=
  forall w e, (m w).1 = Raise e -> E e.

(** Any exception but the [ValueError] of the range check of [integers]. *)
Definition not_range_error (e : exn) : Prop :=
  forall actual, e <> ValueError_uint64_range actual.

(** The entries a computation appended to the log. *)
Definition new_events {A} (m : M A) (w : World) : list event :=
  drop (length (trace w)) (trace (m w).2).

Definition is_launch (e : event) : bool :=
  match e with KernelCall _ => true | _ => false end.

Definition launches (evs : list event) : list launch :=
  omap (fun e => match e with KernelCall l => Some l | _ => None end) evs.

(** The generator is used on the device it was built on. *)
Definition device_ok (self : Generator.t) (w : World) : Prop :=
  current_device w
  = BitGenerator._current_device (_cuRANDGenerator.base (Generator._bit_generator self)).

Global Instance device_ok_dec self w : Decision (device_ok self w).
Proof. unfold device_ok. apply _. Defined.

(** What every launch issued for [self], [func] and [args] on stream [s]
    has in common, whatever the chunk. *)
Definition launch_ok (self : Generator.t) (func : kernel) (args : list pyobj)
    (s : Z) (l : launch) : Prop :=
  let bg := Generator._bit_generator self in
  k_func l = func
  /\ k_generator l = generator (_cuRANDGenerator.class bg)
  /\ k_state l = data_ptr (_cuRANDGenerator._state bg)
  /\ k_stream l = s
  /\ coerce_args (extra_params func) args = Ok (k_args l).

Definition is_launch_with (Q : launch -> Prop) (e : event) : Prop :=
  exists l, e = KernelCall l /\ Q l.

(** The view [a[k:]] of an array whose shape is [d0 :: rest]. *)
Definition slice_from (a : ndarray) (d0 : Z) (rest : list Z) (k : Z) : ndarray :=
  mk_ndarray (nd_alloc a) (nd_off a + slice_start k d0 * prod_shape rest)
             ((d0 - slice_start k d0) :: rest) (nd_dtype a).

(** The launch that fills [chunk]. *)
Definition launch_of (self : Generator.t) (func : kernel) (cargs : list cvalue)
    (s : Z) (chunk : ndarray) : launch :=
  let bg := Generator._bit_generator self in
  mk_launch func (generator (_cuRANDGenerator.class bg))
            (data_ptr (_cuRANDGenerator._state bg))
            (data_ptr chunk) (nd_size chunk) s cargs.

Definition after_launches (ls : list launch) (w : World) : World :=
  foldl (fun w l => after_launch l w) w ls.

(** The range width and the mask that [integers] computes (lines 116-120). *)
Definition diff_of (low high : Z) (endpoint : bool) : Z :=
  if negb endpoint then high - low - 1 else high - low.

Definition mask_of (diff : Z) : Z := Z.shiftl 1 (bit_length diff) - 1.

(** What [integers] may append to the log for a width [diff]: allocations
    of uninitialised arrays, and launches for [self] with the arguments
    [diff] and [mask_of diff], of the 32-bit interval kernel when
    [diff <= _UINT32_MAX] and of the 64-bit one otherwise. *)
Definition integers_event (self : Generator.t) (diff : Z) (e : event) : Prop :=
  match e with
  | Alloc _ _ _ Uninitialised => True
  | KernelCall l =>
      (k_func l = interval_32 /\ diff <= _UINT32_MAX
       \/ k_func l = interval_64 /\ _UINT32_MAX < diff)
      /\ exists s, launch_ok self (k_func l) [PyInt diff; PyInt (mask_of diff)] s l
  | _ => False
  end.

(** What any sampling method of [self] may append to the log. *)
Definition sampling_event (self : Generator.t) (e : event) : Prop :=
  match e with
  | Alloc _ _ _ Uninitialised => True
  | KernelCall l =>
      k_generator l
      = generator (_cuRANDGenerator.class (Generator._bit_generator self))
      /\ k_state l = data_ptr (_cuRANDGenerator._state (Generator._bit_generator self))
  | _ => False
  end.

(** The array [ndarray(shape, d)] returns in [w], and the world it leaves:
    one more allocation, every element as [f] says, and one more log
    entry. *)
Definition fresh_array (shape : list Z) (d : dtype) (w : World) : ndarray :=
  mk_ndarray (length (heap w)) 0 shape d.

Definition allocated (shape : list Z) (d : dtype) (f : fill) (w : World) : World :=
  log (Alloc (length (heap w)) d (prod_shape shape) f)
      (set_heap (heap w ++ [mk_allocation d (replicate (Z.to_nat (prod_shape shape))
                                                       (initial f))]) w).

Definition wrong_device : exn :=
  RuntimeError "This Generator state has been allocated in a different device".

(** A call of one of the three sampling methods. *)
Inductive request :=
| Integers (low high : Z) (size : option (list Z)) (dtype : dtype) (endpoint : bool)
| Beta (a b : pyobj) (size : option (list Z)) (dtype : dtype)
| StandardExponential (size : option (list Z)) (dtype : dtype) (method : string)
                      (out : option ndarray).

Definition perform (self : Generator.t) (r : request) : M ndarray :=
  match r with
  | Integers low high size dtype endpoint =>
      Generator.integers self low high size dtype endpoint
  | Beta a b size dtype => Generator.beta self a b size dtype
  | StandardExponential size dtype method out =>
      Generator.standard_exponential self size dtype method out
  end.

(** What the construction of a bit generator may append to the log. *)
Definition init_event (e : event) : Prop :=
  match e with
  | Alloc _ _ _ Zeroed => True
  | InitCall _ _ _ _ _ => True
  | _ => False
  end.

(** Not an operation on a lock. *)
Definition lock_free (e : event) : Prop :=
  match e with
  | LockAcquire _ | LockRelease _ => False
  | _ => True
  end.

(** Whether lock [k] is held after the events [evs], starting from
    [held]. *)
Definition lock_held (k : nat) (evs : list event) (held : bool) : bool :=
  foldl (fun h e => match e with
                    | LockAcquire k' => if decide (k' = k) then true else h
                    | LockRelease k' => if decide (k' = k) then false else h
                    | _ => h
                    end) held evs.

(** A value some kernel invocation logged at position [j0] or later
    wrote. *)
Definition written_since (j0 : nat) (v : value) : Prop :=
  exists j k, v = Sample j k /\ (j0 <= j)%nat.

(** Allocation [b] exists and all its elements satisfy [P]. *)
Definition cell_all (P : value -> Prop) (b : nat) (h : list allocation) : Prop :=
  exists al, h !! b = Some al /\ Forall P (a_data al).

(** The (offset, size) pairs of the launches in a log, in order. *)
Definition chunk_plan (evs : list event) : list (Z * Z) :=
  (fun l => (p_off (k_out l), k_size l)) <$> launches evs.


(** The range a launch writes lies inside the array [out]: it starts at or
    after the first element of [out] and ends with its last one. *)
Definition within (out : ndarray) (l : launch) : Prop :=
  p_alloc (k_out l) = nd_alloc out
  /\ nd_off out <= p_off (k_out l)
  /\ 0 <= k_size l
  /\ p_off (k_out l) + k_size l = nd_off out + nd_size out.

(** Every step of [m] is in the relation [R]. *)
Definition steps {A} (R : World -> World -> Prop) (m : M A) : Prop :=
  forall w, R w (m w).2.

(** From [w] to [w'] nothing was allocated or freed, and only allocations
    in [may] can hold something else than before. *)
Definition writes_only (may : nat -> Prop) (w w' : World) : Prop :=
  length (heap w') = length (heap w)
  /\ forall i, ~ may i -> heap w' !! i = heap w !! i.

(** Run in a world with at least [n0] allocations, [m] leaves at least
    [n0] of them, leaves allocation [i] as it was, and a value it returns
    satisfies [Q]. *)
Definition keeps {A} (n0 i : nat) (Q : A -> Prop) (m : M A) : Prop :=
  forall w, (n0 <= length (heap w))%nat ->
    (n0 <= length (heap (m w).2))%nat
    /\ heap (m w).2 !! i = heap w !! i
    /\ forall a, (m w).1 = Ok a -> Q a.

(** The bit generator a successful construction returns in [w], and the
    world it leaves: one more lock, one more allocation, the log longer by
    the allocation and the initialisation call. *)
Definition constructed (ext : externals) (c : bitgen_class) (seed : option (list Z))
    (size : Z) (w : World) : _cuRANDGenerator.t :=
  _cuRANDGenerator.mk c (BitGenerator.mk (locks w) seed (current_device w))
    (generate_state ext seed) size
    (mk_ndarray (length (heap w)) 0 [_type_size ext c * size] int8).

Definition after_construction (ext : externals) (c : bitgen_class)
    (seed : option (list Z)) (size : Z) (w : World) : World :=
  let p := mk_devptr (length (heap w)) 0 in
  let w_a := mk_World (current_device w) (current_stream w) (heap w)
                      (S (locks w)) (trace w) in
  let w_b := allocated [_type_size ext c * size] int8 Zeroed w_a in
  log (InitCall (generator c) p (generate_state ext seed) size (current_stream w))
      (set_heap (touch p (heap w_b)) w_b).

(** The allocation a request names as its destination, if it names one. *)
Definition destination (r : request) : option nat :=
  match r with
  | StandardExponential _ _ _ (Some out) => Some (nd_alloc out)
  | _ => None
  end.

(** The calls of the initialisation kernel. *)
Definition is_init (e : event) : bool :=
  match e with InitCall _ _ _ _ _ => true | _ => false end.

(** ** Concrete objects for the examples *)

Module Example.
Definition ext : externals := mk_externals 48 72 64 (fun _ => 2021).

(** Device 0, stream handle 7, nothing allocated yet. *)
Definition w0 : World := mk_World 0 7 [] 0 [].

(** [XORWOW(seed=1, size=S)] built in [w0], and the world it leaves. *)
Definition bitgen (S : Z) : _cuRANDGenerator.t :=
  _cuRANDGenerator.mk XORWOW (BitGenerator.mk 0 (Some [1]) 0) 2021 S
                      (mk_ndarray 0 0 [48 * S] int8).
Definition gen (S : Z) : Generator.t := Generator.mk (bitgen S).
Definition world (S : Z) : World :=
  (_cuRANDGenerator.__init__ ext XORWOW (Some [1]) S w0).2.

(** The same world after the active device was switched to device 1. *)
Definition other_device (w : World) : World :=
  mk_World 1 (current_stream w) (heap w) (locks w) (trace w).

(** A fresh float64 array of the given shape in [world S]. *)
Definition out (shape : list Z) : ndarray := mk_ndarray 1 0 shape float64.
Definition world_out (S : Z) (shape : list Z) : World :=
  (ndarray_new shape float64 Uninitialised (world S)).2.

Definition ab : list pyobj := [PyFloat 1; PyFloat 2].
End Example.

(** ** General facts *)

Lemma sizes_kept_refl h : sizes_kept h h.
Proof. intros i al H. eauto. Qed.

Lemma sizes_kept_trans h1 h2 h3 :
  sizes_kept h1 h2 -> sizes_kept h2 h3 -> sizes_kept h1 h3.
Proof.
  intros H12 H23 i al H.
  destruct (H12 i al H) as (al2 & H2 & Hd2 & Hl2).
  destruct (H23 i al2 H2) as (al3 & H3 & Hd3 & Hl3).
  exists al3. split; [done|]. split; congruence.
Qed.

Lemma sizes_kept_app h cell : sizes_kept h (h ++ [cell]).
Proof.
  intros i al H. exists al. split; [|done].
  rewrite lookup_app_l; [done|]. by eapply lookup_lt_Some.
Qed.

Lemma sizes_kept_alter (f : allocation -> allocation) i h :
  (forall al, a_dtype (f al) = a_dtype al
              /\ length (a_data (f al)) = length (a_data al)) ->
  sizes_kept h (alter f i h).
Proof.
  intros Hf j al H. rewrite list_lookup_alter.
  destruct (decide (i = j)) as [->|]; [|eauto].
  rewrite H. simpl. exists (f al). split; [done|]. apply Hf.
Qed.

Lemma length_write_range off vals data :
  length (write_range off vals data) = length data.
Proof.
  unfold write_range. rewrite length_take, !length_app, length_take, length_drop. lia.
Qed.

Lemma sizes_kept_store p vals h : sizes_kept h (store p vals h).
Proof.
  apply sizes_kept_alter. intros al. simpl. split; [done|]. apply length_write_range.
Qed.

Lemma sizes_kept_touch p h : sizes_kept h (touch p h).
Proof.
  apply sizes_kept_alter. intros al. simpl. split; [done|]. apply length_replicate.
Qed.

Lemma evolves_refl P w : evolves P w w.
Proof.
  split; [done|done| |apply sizes_kept_refl].
  exists []. by rewrite app_nil_r.
Qed.

Lemma evolves_trans P w1 w2 w3 :
  evolves P w1 w2 -> evolves P w2 w3 -> evolves P w1 w3.
Proof.
  intros [Hd1 Hs1 (e1 & Ht1 & Hp1) Hh1] [Hd2 Hs2 (e2 & Ht2 & Hp2) Hh2].
  split; [congruence|congruence| |by eapply sizes_kept_trans].
  exists (e1 ++ e2). split.
  - by rewrite Ht2, Ht1, app_assoc.
  - by apply Forall_app.
Qed.

Lemma evolves_mono (P Q : event -> Prop) w w' :
  (forall e, P e -> Q e) -> evolves P w w' -> evolves Q w w'.
Proof.
  intros HPQ [Hd Hs (e & Ht & Hp) Hh]. split; [done|done| |done].
  exists e. split; [done|]. eapply Forall_impl; eauto.
Qed.

Lemma evolves_log P e w h :
  P e -> sizes_kept (heap w) h -> evolves P w (log e (set_heap h w)).
Proof.
  intros He Hh. split; [done|done| |done].
  exists [e]. split; [done|]. by constructor.
Qed.

Lemma evolves_set_heap P w h :
  sizes_kept (heap w) h -> evolves P w (set_heap h w).
Proof.
  intros Hh. split; [done|done| |done].
  exists []. simpl. by rewrite app_nil_r.
Qed.

Lemma respects_ret {A} P (a : A) : respects P (ret a).
Proof. intros w. apply evolves_refl. Qed.

Lemma respects_raise {A} P e : respects P (@raise A e).
Proof. intros w. apply evolves_refl. Qed.

Lemma respects_lift {A} P (r : result A) : respects P (lift r).
Proof. intros w. apply evolves_refl. Qed.

Lemma respects_bind {A B} P (m : M A) (k : A -> M B) :
  respects P m -> (forall a, respects P (k a)) -> respects P (bind m k).
Proof.
  intros Hm Hk w. unfold bind. specialize (Hm w).
  destruct (m w) as [[a|e] w1]; simpl in *; [|done].
  eapply evolves_trans; [exact Hm|apply Hk].
Qed.

Lemma respects_for_each {A} P (l : list A) (body : A -> M unit) :
  (forall i, respects P (body i)) -> respects P (for_each l body).
Proof.
  intros Hb. induction l as [|i l IH]; simpl.
  - apply respects_ret.
  - apply respects_bind; [apply Hb|intros _; apply IH].
Qed.

Lemma respects_mono {A} (P Q : event -> Prop) (m : M A) :
  (forall e, P e -> Q e) -> respects P m -> respects Q m.
Proof. intros HPQ Hm w. eapply evolves_mono; eauto. Qed.

(** ** The primitives *)

Lemma respects_get_current_stream_ptr P : respects P get_current_stream_ptr.
Proof. intros w. apply evolves_refl. Qed.

Lemma respects_Device_id P : respects P Device_id.
Proof. intros w. apply evolves_refl. Qed.

Lemma respects_threading_Lock P : respects P threading_Lock.
Proof.
  intros w. split; [done|done| |apply sizes_kept_refl].
  exists []. simpl. by rewrite app_nil_r.
Qed.

Lemma respects_device_alloc (P : event -> Prop) d n f :
  (forall id, P (Alloc id d n f)) -> respects P (device_alloc d n f).
Proof. intros HP w. apply evolves_log; [apply HP|apply sizes_kept_app]. Qed.

Lemma respects_ndarray_new (P : event -> Prop) shape d f :
  (forall id, P (Alloc id d (prod_shape shape) f)) ->
  respects P (ndarray_new shape d f).
Proof.
  intros HP. unfold ndarray_new. destruct (existsb _ _).
  - apply respects_raise.
  - apply respects_bind; [by apply respects_device_alloc|].
    intros id. apply respects_ret.
Qed.

Lemma respects_init_curand_generator (P : event -> Prop) g p seed size strm :
  P (InitCall g p seed size strm) ->
  respects P (init_curand_generator g p seed size strm).
Proof. intros HP w. apply evolves_log; [done|apply sizes_kept_touch]. Qed.

Lemma sizes_kept_kernel_effect j l h : sizes_kept h (kernel_effect j l h).
Proof.
  eapply sizes_kept_trans; [apply sizes_kept_touch|apply sizes_kept_store].
Qed.

Lemma respects_run_kernel (P : event -> Prop) l :
  P (KernelCall l) -> respects P (run_kernel l).
Proof. intros HP w. apply evolves_log; [done|apply sizes_kept_kernel_effect]. Qed.

Lemma respects_call (P : event -> Prop) func gen st out size strm args :
  (forall cargs, coerce_args (extra_params func) args = Ok cargs ->
                 P (KernelCall (mk_launch func gen st out size strm cargs))) ->
  respects P (call func gen st out size strm args).
Proof.
  intros HP w. unfold call, bind, lift.
  destruct (coerce_args (extra_params func) args) as [cargs|e]; simpl.
  - apply evolves_log; [by apply HP|apply sizes_kept_kernel_effect].
  - apply evolves_refl.
Qed.

Lemma respects_setitem_ellipsis P out y : respects P (setitem_ellipsis out y).
Proof.
  intros w. unfold setitem_ellipsis.
  destruct (broadcast_to _ _ _); simpl; [|apply evolves_refl].
  apply evolves_set_heap, sizes_kept_store.
Qed.

Lemma respects_add_scalar (P : event -> Prop) low y :
  (forall id, P (Alloc id (nd_dtype y) (nd_size y) Uninitialised)) ->
  respects P (add_scalar low y).
Proof.
  intros HP. unfold add_scalar. apply respects_bind.
  - by apply respects_ndarray_new.
  - intros r w. simpl. apply evolves_set_heap, sizes_kept_store.
Qed.

Lemma respects__check_device P self : respects P (BitGenerator._check_device self).
Proof.
  unfold BitGenerator._check_device. apply respects_bind; [apply respects_Device_id|].
  intros id. destruct (negb _); [apply respects_raise|apply respects_ret].
Qed.

Lemma respects_state P self : respects P (_cuRANDGenerator.state self).
Proof.
  unfold _cuRANDGenerator.state. apply respects_bind; [apply respects__check_device|].
  intros _. apply respects_ret.
Qed.

(** ** The dispatcher *)

Lemma trace_after_launches ls w :
  trace (after_launches ls w) = trace w ++ (KernelCall <$> ls).
Proof.
  revert w. induction ls as [|l ls IH]; intros w; simpl.
  - by rewrite app_nil_r.
  - unfold after_launches in *. simpl. rewrite IH. simpl. by rewrite <- app_assoc.
Qed.

Lemma frame_after_launches ls w :
  current_device (after_launches ls w) = current_device w
  /\ current_stream (after_launches ls w) = current_stream w
  /\ locks (after_launches ls w) = locks w
  /\ length (heap (after_launches ls w)) = length (heap w).
Proof.
  revert w. induction ls as [|l ls IH]; intros w; [done|].
  unfold after_launches in *. simpl.
  destruct (IH (after_launch l w)) as (-> & -> & -> & ->). simpl.
  unfold kernel_effect, store, touch. by rewrite !length_alter.
Qed.

Lemma for_each_launches {A} (idx : list A) (L : A -> launch) (body : A -> M unit) :
  (forall i w, body i w = (Ok tt, after_launch (L i) w)) ->
  forall w, for_each idx body w = (Ok tt, after_launches (L <$> idx) w).
Proof.
  intros Hb. induction idx as [|i idx IH]; intros w; [done|].
  simpl. unfold bind. rewrite Hb. apply IH.
Qed.

Lemma state_ok self w :
  device_ok self w ->
  _cuRANDGenerator.state (Generator._bit_generator self) w
  = (Ok (data_ptr (_cuRANDGenerator._state (Generator._bit_generator self))), w).
Proof.
  unfold device_ok. intros H.
  unfold _cuRANDGenerator.state, BitGenerator._check_device, bind, Device_id.
  rewrite H, Z.eqb_refl. done.
Qed.

Lemma state_wrong_device self w :
  ~ device_ok self w ->
  _cuRANDGenerator.state (Generator._bit_generator self) w
  = (Raise (RuntimeError
              "This Generator state has been allocated in a different device"), w).
Proof.
  unfold device_ok. intros H.
  unfold _cuRANDGenerator.state, BitGenerator._check_device, bind, Device_id.
  destruct (Z.eqb_spec (current_device w)
              (BitGenerator._current_device
                 (_cuRANDGenerator.base (Generator._bit_generator self)))); done.
Qed.

(** Stream count 0: one launch for the whole array. *)
Lemma dispatch_single self func out args cargs w :
  device_ok self w ->
  _cuRANDGenerator.state_size (Generator._bit_generator self) = 0 ->
  coerce_args (extra_params func) args = Ok cargs ->
  Generator._launch_distribution_kernel self func out args w
  = (Ok tt, after_launch (launch_of self func cargs (current_stream w) out) w).
Proof.
  intros Hdev HS Hargs. unfold Generator._launch_distribution_kernel.
  unfold bind at 1. unfold get_current_stream_ptr at 1.
  unfold bind at 1. rewrite (state_ok _ _ Hdev), HS. simpl.
  unfold call, bind, lift. rewrite Hargs. done.
Qed.

(** A stream count other than 0: one launch per index of [range(chunks)],
    each for the view [out[i*bsize:]]. *)
Lemma dispatch_chunks self func out args cargs d0 rest w :
  device_ok self w ->
  nd_shape out = d0 :: rest ->
  _cuRANDGenerator.state_size (Generator._bit_generator self) <> 0 ->
  coerce_args (extra_params func) args = Ok cargs ->
  let S := _cuRANDGenerator.state_size (Generator._bit_generator self) in
  Generator._launch_distribution_kernel self func out args w
  = (Ok tt,
     after_launches
       ((fun i => launch_of self func cargs (current_stream w)
                            (slice_from out d0 rest (i * S)))
          <$> range ((nd_size out + S - 1) / S)) w).
Proof.
  intros Hdev Hshape HS Hargs S. unfold Generator._launch_distribution_kernel.
  unfold bind at 1. unfold get_current_stream_ptr at 1.
  unfold bind at 1. rewrite (state_ok _ _ Hdev). fold S.
  destruct (Z.eqb_spec S 0) as [E|_]; [done|].
  unfold bind at 1. unfold floordiv, lift at 1.
  destruct (Z.eqb_spec S 0) as [E|_]; [done|].
  apply for_each_launches. intros i w'.
  unfold bind, lift, getitem_from. rewrite Hshape.
  unfold call, bind, lift. rewrite Hargs. done.
Qed.

Lemma ceil_div_bounds N S :
  0 < S -> N <= (N + S - 1) / S * S < N + S.
Proof.
  intros HS.
  pose proof (Z.div_mod (N + S - 1) S ltac:(lia)) as E.
  pose proof (Z.mod_pos_bound (N + S - 1) S HS) as B.
  lia.
Qed.

Lemma launch_of_1d self func cargs s out N k :
  nd_shape out = [N] -> 0 <= k <= N ->
  launch_of self func cargs s (slice_from out N [] k)
  = mk_launch func (generator (_cuRANDGenerator.class (Generator._bit_generator self)))
              (data_ptr (_cuRANDGenerator._state (Generator._bit_generator self)))
              (mk_devptr (nd_alloc out) (nd_off out + k)) (N - k) s cargs.
Proof.
  intros Hshape Hk. unfold launch_of, slice_from, data_ptr, nd_size, slice_start. simpl.
  destruct (Z.ltb_spec k 0); [lia|].
  rewrite Z.min_l by lia. f_equal; [f_equal|]; lia.
Qed.

Example example_world_2 :
  Example.world 2
  = mk_World 0 7 [mk_allocation int8 (replicate 96 Opaque)] 1
             [Alloc 0 int8 96 Zeroed;
              InitCall CURAND_XOR_WOW (mk_devptr 0 0) 2021 2 7].
Proof. reflexivity. Qed.

Example example_bitgen_2 :
  _cuRANDGenerator.__init__ Example.ext XORWOW (Some [1]) 2 Example.w0
  = (Ok (Example.bitgen 2), Example.world 2).
Proof. reflexivity. Qed.

(** ** Chunked dispatch *)




(** [int(2.5) = 2], [int(-2.5) = -2], [int(-0.0) = 0]; an infinity and a
    NaN have no integer value. *)
Example float_to_int_examples :
  float_to_int 0x4004000000000000 = Ok 2
  /\ float_to_int 0xc004000000000000 = Ok (-2)
  /\ float_to_int 0x8000000000000000 = Ok 0
  /\ float_to_int 0x41f0000000000000 = Ok (2 ^ 32)
  /\ float_to_int 0x7ff0000000000000 = Raise OverflowError
  /\ float_to_int 0x7ff8000000000000 = Raise ValueError_nan.
Proof. vm_compute. done. Qed.

(** A float passed for an unsigned parameter is truncated and accepted if
    the integer fits; the count is checked before any value is. *)
Example coerce_args_examples :
  coerce_args [c_uint32; c_uint32] [PyFloat 0x4004000000000000; PyInt 3]
  = Ok [CUInt32 2; CUInt32 3]
  /\ coerce_args [c_uint32; c_uint32] [PyFloat 0xc004000000000000; PyInt 3]
     = Raise OverflowError
  /\ coerce_args [c_uint32; c_uint32] [PyFloat 0x41f0000000000000; PyInt 3]
     = Raise OverflowError
  /\ coerce_args [c_uint32; c_uint32] [PyInt (-1)] = Raise TypeError
  /\ coerce_args [] [PyInt 1] = Raise TypeError.
Proof. vm_compute. done. Qed.

Lemma as_int_raises x e :
  as_int x = Raise e -> e = OverflowError \/ e = ValueError_nan.
Proof.
  destruct x as [z|bits]; simpl; [done|]. unfold float_to_int.
  repeat case_match; intros ?; simplify_eq; eauto.
Qed.

Lemma coerce_raises t x e :
  coerce t x = Raise e -> e = OverflowError \/ e = ValueError_nan.
Proof.
  unfold coerce, to_uint32_t, to_uint64_t, to_unsigned.
  destruct t; [destruct (as_int x) eqn:E|destruct (as_int x) eqn:E|destruct x];
    repeat case_match; intros ?; simplify_eq; eauto using as_int_raises.
Qed.

Lemma coerce_each_raises ts xs e :
  coerce_each ts xs = Raise e ->
  e = OverflowError \/ e = TypeError \/ e = ValueError_nan.
Proof.
  revert xs. induction ts as [|t ts IH]; intros [|x xs] H; simpl in H;
    try (simplify_eq; eauto; fail).
  destruct (coerce t x) eqn:E1.
  - destruct (coerce_each ts xs) eqn:E2; [done|]. simplify_eq. eauto.
  - simplify_eq. destruct (coerce_raises _ _ _ E1); eauto.
Qed.

Lemma coerce_args_raises ts xs e :
  coerce_args ts xs = Raise e ->
  e = OverflowError \/ e = TypeError \/ e = ValueError_nan.
Proof.
  unfold coerce_args. case_match; [apply coerce_each_raises|].
  intros [= <-]. eauto.
Qed.

(** C8.  When the stream count is 0, the chunk count is never computed, so
    the call cannot end in a division by zero; on the generator's own
    device, with arguments the kernel accepts, the dispatcher issues
    exactly one kernel invocation, for the whole output buffer. *)
Theorem C8_zero_stream_count_single_launch (self : Generator.t) (func : kernel)
    (out : ndarray) (args : list pyobj) (w : World) :
  _cuRANDGenerator.state_size (Generator._bit_generator self) = 0 ->
  (Generator._launch_distribution_kernel self func out args w).1
    <> Raise ZeroDivisionError
  /\ forall cargs,
       device_ok self w ->
       coerce_args (extra_params func) args = Ok cargs ->
       exists w',
         Generator._launch_distribution_kernel self func out args w = (Ok tt, w')
         /\ trace w' = trace w ++
              [KernelCall
                 (mk_launch func
                    (generator (_cuRANDGenerator.class (Generator._bit_generator self)))
                    (data_ptr (_cuRANDGenerator._state (Generator._bit_generator self)))
                    (data_ptr out) (nd_size out) (current_stream w) cargs)].
Proof.
  intros HS. split.
  - unfold Generator._launch_distribution_kernel.
    unfold bind at 1. unfold get_current_stream_ptr at 1. unfold bind at 1.
    destruct (decide (device_ok self w)) as [Hdev|Hdev].
    + rewrite (state_ok _ _ Hdev), HS. simpl. unfold call, bind, lift.
      destruct (coerce_args (extra_params func) args) as [cargs|e] eqn:E; simpl; [done|].
      intros [= ->]. apply coerce_args_raises in E as [|[|]]; done.
    + rewrite (state_wrong_device _ _ Hdev). done.
  - intros cargs Hdev Hargs. eexists. split.
    + by apply dispatch_single.
    + done.
Qed.

Lemma C8_zero_stream_count_single_launch_witness :
  chunk_plan (new_events
                (Generator._launch_distribution_kernel (Example.gen 0)
                   cupy_distributions.beta (Example.out [5]) Example.ab)
                (Example.world_out 0 [5]))
  = [(0, 5)].
Proof.
  destruct (C8_zero_stream_count_single_launch (Example.gen 0)
              cupy_distributions.beta (Example.out [5]) Example.ab
              (Example.world_out 0 [5]) eq_refl) as [_ H].
  destruct (H [CDouble (PyFloat 1); CDouble (PyFloat 2)] eq_refl eq_refl)
    as (w' & Hrun & Htrace).
  unfold new_events. rewrite Hrun. cbn [snd]. rewrite Htrace, drop_app_length.
  reflexivity.
Defined.

(** ** Range width and mask of [integers] *)

Lemma bit_length_nonneg x : 0 <= bit_length x.
Proof.
  unfold bit_length. destruct (x =? 0); [done|].
  pose proof (Z.log2_nonneg (Z.abs x)). lia.
Qed.

Lemma mask_of_pow2 x : mask_of x = 2 ^ bit_length x - 1.
Proof.
  unfold mask_of. rewrite Z.shiftl_1_l. done.
Qed.

Lemma bit_length_bounds x :
  x <> 0 -> 2 ^ (bit_length x - 1) <= Z.abs x < 2 ^ bit_length x.
Proof.
  intros Hx. unfold bit_length. destruct (Z.eqb_spec x 0); [done|].
  replace (Z.log2 (Z.abs x) + 1 - 1) with (Z.log2 (Z.abs x)) by lia.
  replace (Z.log2 (Z.abs x) + 1) with (Z.succ (Z.log2 (Z.abs x))) by lia.
  apply Z.log2_spec. lia.
Qed.

Lemma abs_le_mask_of x : Z.abs x <= mask_of x.
Proof.
  rewrite mask_of_pow2. destruct (decide (x = 0)) as [->|Hx].
  - done.
  - pose proof (bit_length_bounds x Hx). lia.
Qed.

(** No smaller all-ones mask covers the magnitude. *)
Lemma mask_of_least x n : 0 <= n -> Z.abs x <= 2 ^ n - 1 -> mask_of x <= 2 ^ n - 1.
Proof.
  intros Hn Hx. rewrite mask_of_pow2. destruct (decide (x = 0)) as [->|Hx0].
  - change (bit_length 0) with 0. pose proof (Z.pow_pos_nonneg 2 n). lia.
  - pose proof (bit_length_bounds x Hx0) as [Hlo _].
    pose proof (bit_length_nonneg x).
    destruct (Z.le_gt_cases (bit_length x) n) as [Hle|Hgt].
    + pose proof (Z.pow_le_mono_r 2 (bit_length x) n). lia.
    + pose proof (Z.pow_le_mono_r 2 n (bit_length x - 1)). lia.
Qed.

(** The mask fits [uint64_t] exactly when the magnitude of the width is
    below [2^64]. *)
Lemma to_uint64_t_mask_of x :
  to_uint64_t (mask_of x)
  = if Z.abs x <=? _UINT64_MAX then Ok (mask_of x) else Raise OverflowError.
Proof.
  unfold to_uint64_t, to_unsigned.
  pose proof (abs_le_mask_of x) as Hle.
  pose proof (mask_of_least x 64 ltac:(lia)) as Hleast.
  change _UINT64_MAX with (2 ^ 64 - 1) in *.
  destruct (Z.leb_spec (Z.abs x) (2 ^ 64 - 1)).
  - destruct (Z.leb_spec 0 (mask_of x)); [|lia].
    destruct (Z.ltb_spec (mask_of x) (2 ^ 64)); [done|lia].
  - destruct (Z.leb_spec 0 (mask_of x)); [|done].
    destruct (Z.ltb_spec (mask_of x) (2 ^ 64)); [lia|done].
Qed.

Lemma integers_unfold self low high size dtype endpoint :
  Generator.integers self low high size dtype endpoint
  = (let diff := diff_of low high endpoint in
     mask <- lift (to_uint64_t (mask_of diff)) ;;
     dtype <- (if diff <=? _UINT32_MAX then ret uint32
               else if diff <=? _UINT64_MAX then ret uint64
               else raise (ValueError_uint64_range diff)) ;;
     y <- ndarray_new (shape_arg size) dtype Uninitialised ;;
     (if decide (dtype = uint32)
      then Generator._launch_distribution_kernel self interval_32 y
             [PyInt diff; PyInt mask]
      else Generator._launch_distribution_kernel self interval_64 y
             [PyInt diff; PyInt mask]) ;;;
     add_scalar low y).
Proof. unfold Generator.integers, diff_of. by destruct endpoint. Qed.

(** A width above [2^64 - 1] never reaches the range check of line 124:
    the mask of line 120 does not fit [uint64_t]. *)
Lemma integers_overflow self low high size dtype endpoint w :
  _UINT64_MAX < Z.abs (diff_of low high endpoint) ->
  Generator.integers self low high size dtype endpoint w = (Raise OverflowError, w).
Proof.
  intros H. rewrite integers_unfold. cbv zeta. unfold bind at 1, lift at 1.
  rewrite to_uint64_t_mask_of. destruct (Z.leb_spec (Z.abs (diff_of low high endpoint)) _UINT64_MAX); [lia|done].
Qed.

(** The 32-bit branch: every width up to [2^32 - 1], negative ones
    included, whose magnitude is below [2^64]. *)
Lemma integers_32 self low high size dtype endpoint w :
  let diff := diff_of low high endpoint in
  diff <= _UINT32_MAX -> Z.abs diff <= _UINT64_MAX ->
  Generator.integers self low high size dtype endpoint w
  = (y <- ndarray_new (shape_arg size) uint32 Uninitialised ;;
     Generator._launch_distribution_kernel self interval_32 y
       [PyInt diff; PyInt (mask_of diff)] ;;;
     add_scalar low y) w.
Proof.
  intros diff H32 H64. rewrite integers_unfold. cbv zeta. fold diff.
  unfold bind at 1, lift at 1. rewrite to_uint64_t_mask_of.
  destruct (Z.leb_spec (Z.abs diff) _UINT64_MAX); [|lia].
  unfold bind at 1. destruct (Z.leb_spec diff _UINT32_MAX); [|lia]. done.
Qed.

(** The 64-bit branch. *)
Lemma integers_64 self low high size dtype endpoint w :
  let diff := diff_of low high endpoint in
  _UINT32_MAX < diff <= _UINT64_MAX ->
  Generator.integers self low high size dtype endpoint w
  = (y <- ndarray_new (shape_arg size) uint64 Uninitialised ;;
     Generator._launch_distribution_kernel self interval_64 y
       [PyInt diff; PyInt (mask_of diff)] ;;;
     add_scalar low y) w.
Proof.
  intros diff H. rewrite integers_unfold. cbv zeta. fold diff.
  unfold bind at 1, lift at 1. rewrite to_uint64_t_mask_of.
  unfold _UINT32_MAX, _UINT64_MAX in *.
  destruct (Z.leb_spec (Z.abs diff) 0xffffffffffffffff); [|lia].
  unfold bind at 1. destruct (Z.leb_spec diff 0xffffffff); [lia|].
  destruct (Z.leb_spec diff 0xffffffffffffffff); [|lia]. done.
Qed.

(** ** What the methods append to the log *)

Lemma respects_bind_post {A B} P (Q : A -> Prop) (m : M A) (k : A -> M B) :
  respects P m ->
  (forall w a, (m w).1 = Ok a -> Q a) ->
  (forall a, Q a -> respects P (k a)) ->
  respects P (bind m k).
Proof.
  intros Hm HQ Hk w. unfold bind. specialize (Hm w). specialize (HQ w).
  destruct (m w) as [[a|e] w1]; simpl in *; [|done].
  eapply evolves_trans; [exact Hm|]. apply Hk. by apply HQ.
Qed.

Lemma state_value self w p :
  (_cuRANDGenerator.state self w).1 = Ok p ->
  p = data_ptr (_cuRANDGenerator._state self).
Proof.
  unfold _cuRANDGenerator.state, BitGenerator._check_device, bind, Device_id.
  destruct (negb _); simpl; congruence.
Qed.

Lemma respects__launch_distribution_kernel self func out args :
  respects (is_launch_with (fun l => exists s, launch_ok self func args s l))
           (Generator._launch_distribution_kernel self func out args).
Proof.
  unfold Generator._launch_distribution_kernel.
  apply respects_bind; [apply respects_get_current_stream_ptr|]. intros strm.
  eapply respects_bind_post; [apply respects_state|apply state_value|].
  intros p ->.
  assert (forall o n,
            respects (is_launch_with (fun l => exists s, launch_ok self func args s l))
              (call func
                 (generator (_cuRANDGenerator.class (Generator._bit_generator self)))
                 (data_ptr (_cuRANDGenerator._state (Generator._bit_generator self)))
                 o n strm args)) as Hcall.
  { intros o n. apply respects_call. intros cargs Hc.
    eexists. split; [done|]. exists strm. by repeat split. }
  destruct (_ =? 0); [apply Hcall|].
  apply respects_bind; [apply respects_lift|]. intros chunks.
  apply respects_for_each. intros i.
  apply respects_bind; [apply respects_lift|]. intros chunk. apply Hcall.
Qed.

Lemma launch_ok_sampling self func args s l :
  launch_ok self func args s l -> sampling_event self (KernelCall l).
Proof. intros (_ & Hg & Hs & _). by split. Qed.

Lemma to_uint64_t_value z v : to_uint64_t z = Ok v -> v = z.
Proof. unfold to_uint64_t, to_unsigned. case_match; congruence. Qed.

Lemma respects_integers self low high size dtype endpoint :
  respects (integers_event self (diff_of low high endpoint))
           (Generator.integers self low high size dtype endpoint).
Proof.
  rewrite integers_unfold. cbv zeta. set (diff := diff_of low high endpoint).
  eapply (respects_bind_post _ (fun mask => mask = mask_of diff));
    [apply respects_lift| |].
  { intros w a. unfold lift. simpl. intros H. by apply to_uint64_t_value. }
  intros mask ->.
  eapply (respects_bind_post _
            (fun dt => dt = uint32 /\ diff <= _UINT32_MAX
                       \/ dt = uint64 /\ _UINT32_MAX < diff)).
  { repeat case_match; (apply respects_ret || apply respects_raise). }
  { intros w dt. destruct (Z.leb_spec diff _UINT32_MAX); simpl.
    - intros [= <-]. by left.
    - destruct (diff <=? _UINT64_MAX); simpl; [|done]. intros [= <-]. by right. }
  intros dt Hdt. apply respects_bind; [by apply respects_ndarray_new|]. intros y.
  apply respects_bind; [|intros _; by apply respects_add_scalar].
  destruct Hdt as [[-> Hd]|[-> Hd]]; simpl.
  - eapply respects_mono; [|apply respects__launch_distribution_kernel].
    intros e (l & -> & s & Hl). simpl.
    pose proof Hl as (Hf & _). rewrite Hf. split; [by left|]. by exists s.
  - eapply respects_mono; [|apply respects__launch_distribution_kernel].
    intros e (l & -> & s & Hl). simpl.
    pose proof Hl as (Hf & _). rewrite Hf. split; [by right|]. by exists s.
Qed.

Lemma integers_event_sampling self diff e :
  integers_event self diff e -> sampling_event self e.
Proof.
  destruct e as [id d n [|]| |l| |]; simpl; try done.
  intros (_ & s & Hl). by eapply launch_ok_sampling.
Qed.

Lemma respects_beta self a b size dtype :
  respects (sampling_event self) (Generator.beta self a b size dtype).
Proof.
  unfold Generator.beta.
  apply respects_bind; [by apply respects_ndarray_new|]. intros y.
  apply respects_bind; [|intros _; apply respects_ret].
  eapply respects_mono; [|apply respects__launch_distribution_kernel].
  intros e (l & -> & s & Hl). by eapply launch_ok_sampling.
Qed.

Lemma respects_standard_exponential self size dtype method out :
  respects (fun e => sampling_event self e
                     /\ forall l, e = KernelCall l ->
                                  k_func l = exponential /\ k_args l = [])
           (Generator.standard_exponential self size dtype method out).
Proof.
  unfold Generator.standard_exponential.
  destruct (String.eqb method "zig"); [apply respects_raise|].
  apply respects_bind; [by apply respects_ndarray_new|]. intros y.
  apply respects_bind.
  - eapply respects_mono; [|apply respects__launch_distribution_kernel].
    intros e (l & -> & s & Hl). split; [by eapply launch_ok_sampling|].
    intros l' [= <-]. destruct Hl as (Hf & _ & _ & _ & Hc). split; [done|].
    unfold coerce_args in Hc. simpl in Hc. congruence.
  - intros _. destruct out as [o|]; [|apply respects_ret].
    apply respects_bind; [apply respects_setitem_ellipsis|].
    intros _. apply respects_ret.
Qed.

Lemma new_events_respects {A} P (m : M A) w :
  respects P m -> Forall P (new_events m w).
Proof.
  intros Hm. destruct (Hm w) as [_ _ (evs & Ht & HP) _].
  unfold new_events. rewrite Ht, drop_app_length. done.
Qed.

Lemma to_unsigned_Ok bits z v :
  to_unsigned bits z = Ok v -> v = z /\ 0 <= z < 2 ^ bits.
Proof.
  unfold to_unsigned.
  destruct (Z.leb_spec 0 z), (Z.ltb_spec z (2 ^ bits)); simpl; intros ?; simplify_eq.
  lia.
Qed.

Lemma coerce_args_interval_32 diff mask cargs :
  coerce_args (extra_params interval_32) [PyInt diff; PyInt mask] = Ok cargs ->
  cargs = [CUInt32 diff; CUInt32 mask] /\ 0 <= diff < 2 ^ 32.
Proof.
  unfold coerce_args. simpl. unfold to_uint32_t.
  destruct (to_unsigned 32 diff) as [d|] eqn:Ed; [|done].
  destruct (to_unsigned 32 mask) as [m|] eqn:Em; [|done].
  apply to_unsigned_Ok in Ed as [-> ?]. apply to_unsigned_Ok in Em as [-> ?].
  intros [= <-]. done.
Qed.

Lemma coerce_args_interval_64 diff mask cargs :
  coerce_args (extra_params interval_64) [PyInt diff; PyInt mask] = Ok cargs ->
  cargs = [CUInt64 diff; CUInt64 mask] /\ 0 <= diff < 2 ^ 64.
Proof.
  unfold coerce_args. simpl. unfold to_uint64_t.
  destruct (to_unsigned 64 diff) as [d|] eqn:Ed; [|done].
  destruct (to_unsigned 64 mask) as [m|] eqn:Em; [|done].
  apply to_unsigned_Ok in Ed as [-> ?]. apply to_unsigned_Ok in Em as [-> ?].
  intros [= <-]. done.
Qed.

(** C3.  Whatever kernel invocation [integers] issues, it is one of the
    two interval kernels and its two trailing arguments are the width
    [diff = high - low] (less 1 unless [endpoint]) and the mask
    [(1 << bit_length(diff)) - 1]; that mask is [2^bit_length(diff) - 1],
    it covers [diff], and no smaller all-ones mask does.  For
    [low = 0], [high = 10] the arguments are 9 and 15 without [endpoint]
    and 10 and 15 with it. *)
Theorem C3_rejection_mask :
  (forall self low high size dtype endpoint w l,
     KernelCall l ∈ new_events (Generator.integers self low high size dtype endpoint) w ->
     let diff := if endpoint then high - low else high - low - 1 in
     let mask := Z.shiftl 1 (bit_length diff) - 1 in
     (k_func l = interval_32 /\ k_args l = [CUInt32 diff; CUInt32 mask]
      \/ k_func l = interval_64 /\ k_args l = [CUInt64 diff; CUInt64 mask])
     /\ mask = 2 ^ bit_length diff - 1
     /\ 0 <= diff <= mask
     /\ forall n, 0 <= n -> diff <= 2 ^ n - 1 -> mask <= 2 ^ n - 1)
  /\ (forall self size dtype w l,
        KernelCall l ∈ new_events (Generator.integers self 0 10 size dtype false) w ->
        k_args l = [CUInt32 9; CUInt32 15])
  /\ (forall self size dtype w l,
        KernelCall l ∈ new_events (Generator.integers self 0 10 size dtype true) w ->
        k_args l = [CUInt32 10; CUInt32 15]).
Proof.
  assert (forall self low high size dtype endpoint w l,
     KernelCall l ∈ new_events (Generator.integers self low high size dtype endpoint) w ->
     let diff := diff_of low high endpoint in
     (k_func l = interval_32 /\ k_args l = [CUInt32 diff; CUInt32 (mask_of diff)]
      /\ diff <= _UINT32_MAX
      \/ k_func l = interval_64 /\ k_args l = [CUInt64 diff; CUInt64 (mask_of diff)]
         /\ _UINT32_MAX < diff)
     /\ 0 <= diff) as Hgen.
  { intros self low high size dtype endpoint w l Hin diff.
    pose proof (new_events_respects _ _ w
                  (respects_integers self low high size dtype endpoint)) as Hall.
    rewrite Forall_forall in Hall. specialize (Hall _ Hin). simpl in Hall.
    destruct Hall as (Hf & s & (_ & _ & _ & _ & Hc)). fold diff in Hc, Hf.
    destruct Hf as [[Hf Hd]|[Hf Hd]]; rewrite Hf in Hc.
    - apply coerce_args_interval_32 in Hc as [-> ?]. split; [left|]; [done|lia].
    - apply coerce_args_interval_64 in Hc as [-> ?]. split; [right|]; [done|lia]. }
  split; [|split].
  - intros self low high size dtype endpoint w l Hin diff mask.
    destruct (Hgen _ _ _ _ _ _ _ _ Hin) as [Hargs Hpos].
    assert (diff_of low high endpoint = diff) as Ed by (by destruct endpoint).
    rewrite Ed in *. subst mask.
    change (Z.shiftl 1 (bit_length diff) - 1) with (mask_of diff).
    split; [tauto|]. split; [apply mask_of_pow2|].
    pose proof (abs_le_mask_of diff) as Hm.
    split; [lia|]. intros n Hn Hle. apply mask_of_least; [done|lia].
  - intros self size dtype w l Hin.
    destruct (Hgen _ _ _ _ _ _ _ _ Hin) as [[(_ & -> & _)|(_ & _ & Hd)] _];
      [reflexivity|]. by vm_compute in Hd.
  - intros self size dtype w l Hin.
    destruct (Hgen _ _ _ _ _ _ _ _ Hin) as [[(_ & -> & _)|(_ & _ & Hd)] _];
      [reflexivity|]. by vm_compute in Hd.
Qed.

Lemma C3_rejection_mask_witness :
  let l := mk_launch interval_32 CURAND_XOR_WOW (mk_devptr 0 0) (mk_devptr 1 0)
                     3 7 [CUInt32 9; CUInt32 15] in
  KernelCall l ∈ new_events (Generator.integers (Example.gen 4) 0 10 (Some [3])
                               int32 false) (Example.world 4)
  /\ (k_func l = interval_32 /\ k_args l = [CUInt32 9; CUInt32 15]
      \/ k_func l = interval_64 /\ k_args l = [CUInt64 9; CUInt64 15]).
Proof.
  intros l.
  assert (KernelCall l ∈ new_events (Generator.integers (Example.gen 4) 0 10
                                       (Some [3]) int32 false) (Example.world 4))
    as Hin.
  { vm_compute. constructor 2. constructor 1. }
  split; [exact Hin|].
  exact (proj1 (proj1 C3_rejection_mask (Example.gen 4) 0 10 (Some [3]) int32
                  false (Example.world 4) l Hin)).
Defined.

(** ** Width selection of [integers] *)

(** C2, at its third example: for [integers(low=0, high=2**65, size=5)]
    the call ends in [OverflowError], raised where the mask is stored in a
    [uint64_t] (line 120), and not in the [ValueError] of line 127; nothing
    was allocated and no kernel was invoked. *)
Theorem C2_width_overflow_raises_OverflowError (self : Generator.t) (w : World) :
  Generator.integers self 0 (2 ^ 65) (Some [5]) int32 false w
  = (Raise OverflowError, w).
Proof. apply integers_overflow. by vm_compute. Qed.

(** The 32-bit kernel for [high = 2**31] and the 64-bit kernel for
    [high = 2**40], each launched once on an array of the matching width. *)
Example integers_selects_width :
  let run high :=
    new_events (Generator.integers (Example.gen 8) 0 high (Some [5]) int32 false)
               (Example.world 8) in
  run (2 ^ 31)
  = [Alloc 1 uint32 5 Uninitialised;
     KernelCall (mk_launch interval_32 CURAND_XOR_WOW (mk_devptr 0 0) (mk_devptr 1 0)
                           5 7 [CUInt32 (2 ^ 31 - 1); CUInt32 (2 ^ 31 - 1)]);
     Alloc 2 uint32 5 Uninitialised]
  /\ run (2 ^ 40)
     = [Alloc 1 uint64 5 Uninitialised;
        KernelCall (mk_launch interval_64 CURAND_XOR_WOW (mk_devptr 0 0) (mk_devptr 1 0)
                              5 7 [CUInt64 (2 ^ 40 - 1); CUInt64 (2 ^ 40 - 1)]);
        Alloc 2 uint64 5 Uninitialised].
Proof. vm_compute. done. Qed.

(** ** Which exceptions can come out *)

Lemma raises_only_ret {A} E (a : A) : raises_only E (ret a).
Proof. intros w e. done. Qed.

Lemma raises_only_raise {A} (E : exn -> Prop) e : E e -> raises_only E (@raise A e).
Proof. intros He w e' [= <-]. done. Qed.

Lemma raises_only_lift {A} (E : exn -> Prop) (r : result A) :
  (forall e, r = Raise e -> E e) -> raises_only E (lift r).
Proof. intros Hr w e. apply Hr. Qed.

Lemma raises_only_bind_post {A B} E (Q : A -> Prop) (m : M A) (k : A -> M B) :
  raises_only E m ->
  (forall w a, (m w).1 = Ok a -> Q a) ->
  (forall a, Q a -> raises_only E (k a)) ->
  raises_only E (bind m k).
Proof.
  intros Hm HQ Hk w e. unfold bind. specialize (Hm w). specialize (HQ w).
  destruct (m w) as [[a|e'] w1]; simpl in *.
  - apply Hk. by apply HQ.
  - intros [= <-]. by apply Hm.
Qed.

Lemma raises_only_bind {A B} E (m : M A) (k : A -> M B) :
  raises_only E m -> (forall a, raises_only E (k a)) -> raises_only E (bind m k).
Proof.
  intros Hm Hk. apply (raises_only_bind_post E (fun _ => True)); auto.
Qed.

Lemma raises_only_for_each {A} E (l : list A) (body : A -> M unit) :
  (forall i, raises_only E (body i)) -> raises_only E (for_each l body).
Proof.
  intros Hb. induction l as [|i l IH]; simpl.
  - apply raises_only_ret.
  - apply raises_only_bind; [apply Hb|intros _; apply IH].
Qed.

Lemma raises_only_ndarray_new shape d f :
  raises_only not_range_error (ndarray_new shape d f).
Proof.
  unfold ndarray_new. destruct (existsb _ _).
  - by apply raises_only_raise.
  - apply raises_only_bind; [|intros id; apply raises_only_ret].
    intros w e. done.
Qed.

Lemma raises_only__launch_distribution_kernel self func out args :
  raises_only not_range_error
              (Generator._launch_distribution_kernel self func out args).
Proof.
  assert (forall g st o n strm,
            raises_only not_range_error (call func g st o n strm args)) as Hcall.
  { intros g st o n strm. unfold call.
    apply raises_only_bind; [|intros cargs w e; done].
    apply raises_only_lift. intros e He.
    apply coerce_args_raises in He as [->|[->| ->]]; done. }
  unfold Generator._launch_distribution_kernel.
  apply raises_only_bind; [intros w e; done|]. intros strm.
  apply raises_only_bind.
  { unfold _cuRANDGenerator.state, BitGenerator._check_device.
    apply raises_only_bind; [|intros _; apply raises_only_ret].
    apply raises_only_bind; [intros w e; done|]. intros id.
    destruct (negb _); [by apply raises_only_raise|apply raises_only_ret]. }
  intros p. destruct (_ =? 0); [apply Hcall|].
  apply raises_only_bind.
  { apply raises_only_lift. unfold floordiv. intros e. case_match; [|done].
    by intros [= <-]. }
  intros chunks. apply raises_only_for_each. intros i.
  apply raises_only_bind; [|intros chunk; apply Hcall].
  apply raises_only_lift. unfold getitem_from. intros e.
  destruct (nd_shape out); [|done]. by intros [= <-].
Qed.

(** The [ValueError] of line 127 is dead code: no call of [integers] ends
    in it. *)
Lemma integers_never_ValueError self low high size dtype endpoint w actual :
  (Generator.integers self low high size dtype endpoint w).1
  <> Raise (ValueError_uint64_range actual).
Proof.
  intros H. revert actual H.
  enough (raises_only not_range_error
            (Generator.integers self low high size dtype endpoint)) as Hr.
  { intros actual H. by apply (Hr w _ H actual). }
  rewrite integers_unfold. cbv zeta. set (diff := diff_of low high endpoint).
  apply (raises_only_bind_post _ (fun _ => Z.abs diff <= _UINT64_MAX)).
  - apply raises_only_lift. intros e. rewrite to_uint64_t_mask_of.
    case_match; [done|]. by intros [= <-].
  - intros w' a. unfold lift. simpl. rewrite to_uint64_t_mask_of.
    destruct (Z.leb_spec (Z.abs diff) _UINT64_MAX); done.
  - intros mask Hfit. apply raises_only_bind.
    + destruct (diff <=? _UINT32_MAX); [apply raises_only_ret|].
      destruct (Z.leb_spec diff _UINT64_MAX); [apply raises_only_ret|lia].
    + intros dt. apply raises_only_bind; [apply raises_only_ndarray_new|].
      intros y. apply raises_only_bind.
      * destruct (decide _); apply raises_only__launch_distribution_kernel.
      * intros _. unfold add_scalar.
        apply raises_only_bind; [apply raises_only_ndarray_new|].
        intros r w' e. done.
Qed.

(** ** Device affinity *)

Lemma ndarray_new_ok shape d f w :
  Forall (fun n => 0 <= n) shape ->
  ndarray_new shape d f w = (Ok (fresh_array shape d w), allocated shape d f w).
Proof.
  intros Hshape. unfold ndarray_new.
  replace (existsb (fun n => n <? 0) shape) with false; [done|].
  symmetry. induction Hshape as [|n l Hn _ IH]; [done|]. simpl.
  rewrite IH. destruct (Z.ltb_spec n 0); [lia|done].
Qed.

Lemma dispatch_wrong_device self func out args w :
  ~ device_ok self w ->
  Generator._launch_distribution_kernel self func out args w = (Raise wrong_device, w).
Proof.
  intros Hdev. unfold Generator._launch_distribution_kernel.
  unfold bind at 1. unfold get_current_stream_ptr at 1. unfold bind at 1.
  by rewrite (state_wrong_device _ _ Hdev).
Qed.

Lemma sample_wrong_device {A} self func args shape d (k : ndarray -> M A) w :
  ~ device_ok self w ->
  Forall (fun n => 0 <= n) shape ->
  (y <- ndarray_new shape d Uninitialised ;;
   Generator._launch_distribution_kernel self func y args ;;;
   k y) w
  = (Raise wrong_device, allocated shape d Uninitialised w).
Proof.
  intros Hdev Hshape. unfold bind at 1. rewrite ndarray_new_ok by done.
  unfold bind at 1. by rewrite dispatch_wrong_device.
Qed.

(** C4 (as amended).  On the device the generator was built on, the check
    does nothing.  On any other device, [state()] fails with the
    [RuntimeError] and returns no pointer, and so does the dispatcher,
    before any kernel invocation; each sampling method whose own argument
    checks pass fails with that error too, after it has allocated its
    output buffer, which is left unwritten: the world it leaves is the
    one right after the allocation. *)
Theorem C4_device_check (self : Generator.t) (w : World) :
  let bg := Generator._bit_generator self in
  (device_ok self w ->
   BitGenerator._check_device (_cuRANDGenerator.base bg) w = (Ok tt, w))
  /\ (~ device_ok self w ->
      _cuRANDGenerator.state bg w = (Raise wrong_device, w)
      /\ (forall func out args,
            Generator._launch_distribution_kernel self func out args w
            = (Raise wrong_device, w))
      /\ (forall a b size dtype,
            Forall (fun n => 0 <= n) (shape_arg size) ->
            Generator.beta self a b size dtype w
            = (Raise wrong_device, allocated (shape_arg size) dtype Uninitialised w))
      /\ (forall size dtype method out,
            Forall (fun n => 0 <= n) (shape_arg size) ->
            method <> "zig"%string ->
            Generator.standard_exponential self size dtype method out w
            = (Raise wrong_device, allocated (shape_arg size) dtype Uninitialised w))
      /\ (forall low high size dtype endpoint,
            Forall (fun n => 0 <= n) (shape_arg size) ->
            Z.abs (diff_of low high endpoint) <= _UINT64_MAX ->
            Generator.integers self low high size dtype endpoint w
            = (Raise wrong_device,
               allocated (shape_arg size)
                 (if diff_of low high endpoint <=? _UINT32_MAX then uint32 else uint64)
                 Uninitialised w))).
Proof.
  intros bg. split.
  - unfold device_ok. fold bg. intros H.
    unfold BitGenerator._check_device, bind, Device_id. by rewrite H, Z.eqb_refl.
  - intros Hdev. split; [by apply state_wrong_device|].
    split; [intros; by apply dispatch_wrong_device|].
    split; [|split].
    + intros a b size dtype Hshape. by apply sample_wrong_device.
    + intros size dtype method out Hshape Hm. unfold Generator.standard_exponential.
      destruct (String.eqb_spec method "zig"); [done|].
      by apply sample_wrong_device.
    + intros low high size dtype endpoint Hshape Hfit.
      destruct (Z.leb_spec (diff_of low high endpoint) _UINT32_MAX).
      * rewrite integers_32 by done. by apply sample_wrong_device.
      * rewrite integers_64 by lia. by apply sample_wrong_device.
Qed.

Lemma C4_device_check_witness :
  let w := Example.other_device (Example.world 2) in
  Generator.beta (Example.gen 2) (PyFloat 1) (PyFloat 2) (Some [3]) float64 w
  = (Raise wrong_device, allocated [3] float64 Uninitialised w)
  /\ BitGenerator._check_device (_cuRANDGenerator.base (Example.bitgen 2))
       (Example.world 2)
     = (Ok tt, Example.world 2).
Proof.
  intros w. split.
  - destruct (C4_device_check (Example.gen 2) w) as [_ H].
    destruct H as (_ & _ & Hbeta & _); [by vm_compute|].
    apply (Hbeta (PyFloat 1) (PyFloat 2) (Some [3]) float64).
    repeat constructor; lia.
  - destruct (C4_device_check (Example.gen 2) (Example.world 2)) as [H _].
    by apply H.
Defined.

(** After the active device was switched, [beta(1.0, 2.0, size=3)] fails
    as it must, but its output buffer has been allocated by then. *)
Lemma C4_counterexample :
  let w := Example.other_device (Example.world 2) in
  let r := Generator.beta (Example.gen 2) (PyFloat 1) (PyFloat 2) (Some [3]) float64 w in
  r.1 = Raise wrong_device
  /\ new_events (Generator.beta (Example.gen 2) (PyFloat 1) (PyFloat 2) (Some [3])
                   float64) w
     = [Alloc 1 float64 3 Uninitialised]
  /\ length (heap r.2) = S (length (heap w))
  /\ heap r.2 !! 1%nat = Some (mk_allocation float64 [Garbage; Garbage; Garbage]).
Proof. vm_compute. done. Qed.

(** ** Arguments the kernel does not accept *)

Lemma dispatch_rejected_single self func out args e w :
  device_ok self w ->
  _cuRANDGenerator.state_size (Generator._bit_generator self) = 0 ->
  coerce_args (extra_params func) args = Raise e ->
  Generator._launch_distribution_kernel self func out args w = (Raise e, w).
Proof.
  intros Hdev HS Hargs. unfold Generator._launch_distribution_kernel.
  unfold bind at 1. unfold get_current_stream_ptr at 1.
  unfold bind at 1. rewrite (state_ok _ _ Hdev), HS. simpl.
  unfold call, bind, lift. by rewrite Hargs.
Qed.

Lemma dispatch_rejected_chunks self func out args e d0 rest w :
  let S := _cuRANDGenerator.state_size (Generator._bit_generator self) in
  device_ok self w ->
  S <> 0 ->
  nd_shape out = d0 :: rest ->
  0 < (nd_size out + S - 1) / S ->
  coerce_args (extra_params func) args = Raise e ->
  Generator._launch_distribution_kernel self func out args w = (Raise e, w).
Proof.
  intros S Hdev HS Hshape Hchunks Hargs. unfold Generator._launch_distribution_kernel.
  unfold bind at 1. unfold get_current_stream_ptr at 1.
  unfold bind at 1. rewrite (state_ok _ _ Hdev). fold S.
  destruct (Z.eqb_spec S 0) as [E|_]; [done|].
  unfold bind at 1. unfold floordiv, lift at 1.
  destruct (Z.eqb_spec S 0) as [E|_]; [done|].
  unfold range. rewrite seqZ_cons by done. simpl.
  unfold bind at 1. unfold bind at 1. unfold lift at 1, getitem_from. rewrite Hshape.
  unfold call, bind, lift. by rewrite Hargs.
Qed.

Lemma dispatch_no_chunks self func out args w :
  let S := _cuRANDGenerator.state_size (Generator._bit_generator self) in
  device_ok self w ->
  S <> 0 ->
  (nd_size out + S - 1) / S <= 0 ->
  Generator._launch_distribution_kernel self func out args w = (Ok tt, w).
Proof.
  intros S Hdev HS Hchunks. unfold Generator._launch_distribution_kernel.
  unfold bind at 1. unfold get_current_stream_ptr at 1.
  unfold bind at 1. rewrite (state_ok _ _ Hdev). fold S.
  destruct (Z.eqb_spec S 0) as [E|_]; [done|].
  unfold bind at 1. unfold floordiv, lift at 1.
  destruct (Z.eqb_spec S 0) as [E|_]; [done|].
  unfold range. rewrite seqZ_nil by done. done.
Qed.

Lemma coerce_negative_width diff mask :
  diff < 0 ->
  coerce_args (extra_params interval_32) [PyInt diff; PyInt mask] = Raise OverflowError.
Proof.
  intros Hd. unfold coerce_args. simpl. unfold to_uint32_t, to_unsigned.
  destruct (Z.leb_spec 0 diff); [lia|done].
Qed.

Lemma new_events_of {A} (m : M A) w evs :
  trace (m w).2 = trace w ++ evs -> new_events m w = evs.
Proof. intros H. unfold new_events. by rewrite H, drop_app_length. Qed.

Lemma prod_shape_nonneg shape :
  Forall (fun n => 0 <= n) shape -> 0 <= prod_shape shape.
Proof.
  induction 1 as [|n l Hn _ IH]; unfold prod_shape in *; simpl; [done|nia].
Qed.

Lemma ndarray_new_negative shape d f w :
  Exists (fun n => n < 0) shape ->
  ndarray_new shape d f w = (Raise ValueError_negative_dimensions, w).
Proof.
  intros Hshape. unfold ndarray_new.
  replace (existsb (fun n => n <? 0) shape) with true; [done|].
  symmetry. induction Hshape as [n l Hn|n l _ IH]; simpl.
  - destruct (Z.ltb_spec n 0); [done|lia].
  - rewrite IH. apply orb_true_r.
Qed.

(** An array without axes and a stream count other than 0: the slice of
    the first chunk fails, whatever the arguments. *)
Lemma dispatch_zero_dim_fails self func out args w :
  device_ok self w ->
  _cuRANDGenerator.state_size (Generator._bit_generator self) <> 0 ->
  nd_shape out = [] ->
  Generator._launch_distribution_kernel self func out args w = (Raise IndexError, w).
Proof.
  intros Hdev HS Hshape. unfold Generator._launch_distribution_kernel.
  unfold bind at 1. unfold get_current_stream_ptr at 1.
  unfold bind at 1. rewrite (state_ok _ _ Hdev).
  set (bsize := _cuRANDGenerator.state_size (Generator._bit_generator self)) in *.
  destruct (Z.eqb_spec bsize 0) as [E|_]; [done|].
  unfold bind at 1. unfold floordiv, lift at 1.
  destruct (Z.eqb_spec bsize 0) as [E|_]; [done|].
  unfold nd_size. rewrite Hshape. simpl.
  replace (1 + bsize - 1) with (1 * bsize) by lia. rewrite Z.div_mul by done.
  unfold range. simpl. unfold bind at 1. unfold bind at 1.
  unfold lift at 1, getitem_from. by rewrite Hshape.
Qed.

(** No launch [integers] could issue for a negative width has arguments
    the interval kernels accept. *)
Lemma integers_event_negative self diff l :
  diff < 0 -> ~ integers_event self diff (KernelCall l).
Proof.
  intros Hneg [[[Hf _]|[_ Hd]] (s & _ & _ & _ & _ & Hc)].
  - rewrite Hf, coerce_negative_width in Hc by done. done.
  - unfold _UINT32_MAX in Hd. lia.
Qed.

(** C10 (as amended).  [integers] does not check that [high > low].  For
    every call with a negative width [diff] of magnitude below [2^64], on
    the generator's own device, whatever the size argument and the stream
    count [bsize]: the call is not rejected up front; it takes the 32-bit
    branch, that is, it asks for a [uint32] buffer of the requested shape
    and enters the dispatcher with the 32-bit interval kernel, [diff] and
    the mask [2^bit_length(diff) - 1].  No kernel is ever invoked with
    that width.  A shape with a negative extent is refused by [ndarray],
    with nothing allocated.  Otherwise the buffer is allocated, and: as
    soon as an invocation is attempted ([bsize = 0], or an array with at
    least one axis and a positive chunk count) the call ends in
    [OverflowError]; without [size] and with [bsize <> 0] it ends in
    [IndexError], where the array without axes is sliced; in both cases
    only the allocated buffer is left.  Only when no invocation is
    attempted ([bsize <> 0] and a chunk count of 0 or less, which for
    [bsize > 0] means an empty array) does the call return, with an array
    of the requested shape. *)
Theorem C10_negative_width (self : Generator.t) (low high : Z)
    (size : option (list Z)) (dtype : dtype) (endpoint : bool) (w : World) :
  let diff := diff_of low high endpoint in
  let bsize := _cuRANDGenerator.state_size (Generator._bit_generator self) in
  let shape := shape_arg size in
  let chunks := (prod_shape shape + bsize - 1) / bsize in
  let call := Generator.integers self low high size dtype endpoint in
  let w1 := allocated shape uint32 Uninitialised w in
  diff < 0 -> - 2 ^ 64 < diff -> device_ok self w ->
  call w
  = (y <- ndarray_new shape uint32 Uninitialised ;;
     Generator._launch_distribution_kernel self interval_32 y
       [PyInt diff; PyInt (mask_of diff)] ;;;
     add_scalar low y) w
  /\ mask_of diff = 2 ^ bit_length diff - 1
  /\ launches (new_events call w) = []
  /\ (Exists (fun n => n < 0) shape ->
      call w = (Raise ValueError_negative_dimensions, w))
  /\ (Forall (fun n => 0 <= n) shape ->
      (bsize = 0 \/ shape <> [] /\ 0 < chunks ->
       call w = (Raise OverflowError, w1))
      /\ (bsize <> 0 -> shape = [] -> call w = (Raise IndexError, w1))
      /\ (bsize <> 0 -> chunks <= 0 ->
          (call w).1 = Ok (mk_ndarray (S (length (heap w))) 0 shape uint32)))
  /\ (0 < bsize -> Forall (fun n => 0 <= n) shape ->
      (chunks <= 0 <-> prod_shape shape = 0)).
Proof.
  intros diff bsize shape chunks call w1 Hneg Hlo Hdev.
  assert (call w
          = (y <- ndarray_new shape uint32 Uninitialised ;;
             Generator._launch_distribution_kernel self interval_32 y
               [PyInt diff; PyInt (mask_of diff)] ;;;
             add_scalar low y) w) as Hbranch.
  { apply integers_32; fold diff; unfold _UINT32_MAX, _UINT64_MAX; lia. }
  assert (device_ok self w1) as Hdev1 by done.
  split; [done|]. split; [apply mask_of_pow2|]. split; [|split; [|split]].
  - pose proof (new_events_respects _ _ w
                  (respects_integers self low high size dtype endpoint)) as Hall.
    fold diff call in Hall.
    induction Hall as [|e evs He _ IH]; [done|].
    destruct e as [id d n f| |l| |]; try exact IH.
    by destruct (integers_event_negative self diff l Hneg).
  - intros Hshape. rewrite Hbranch. unfold bind at 1.
    by rewrite ndarray_new_negative.
  - intros Hshape. split; [|split].
    + intros Hcase. rewrite Hbranch. unfold bind at 1.
      rewrite ndarray_new_ok by done. fold w1. unfold bind at 1.
      destruct (decide (bsize = 0)) as [E0|E0].
      * by rewrite (dispatch_rejected_single _ _ _ _ OverflowError w1 Hdev1 E0
                      (coerce_negative_width _ _ Hneg)).
      * destruct Hcase as [|[Hne Hchunks]]; [done|].
        destruct shape as [|d0 rest] eqn:Eshape; [done|].
        by rewrite (dispatch_rejected_chunks self interval_32
                      (fresh_array (d0 :: rest) uint32 w) _ OverflowError
                      d0 rest w1 Hdev1 E0 eq_refl Hchunks
                      (coerce_negative_width _ _ Hneg)).
    + intros E0 Eshape. rewrite Hbranch. unfold bind at 1.
      rewrite ndarray_new_ok by done. fold w1. unfold bind at 1.
      rewrite dispatch_zero_dim_fails; [done|done|done|]. by rewrite <- Eshape.
    + intros E0 Hchunks. rewrite Hbranch. unfold bind at 1.
      rewrite ndarray_new_ok by done. fold w1. unfold bind at 1.
      rewrite dispatch_no_chunks; [|done|done|done].
      unfold add_scalar, bind. rewrite ndarray_new_ok by done. simpl.
      unfold fresh_array, w1, allocated. simpl. rewrite length_app. simpl.
      do 2 f_equal. lia.
  - intros Hpos Hshape.
    pose proof (prod_shape_nonneg _ Hshape) as HN.
    pose proof (ceil_div_bounds (prod_shape shape) bsize Hpos) as Hc.
    fold chunks in Hc. split; [nia|].
    intros H0. unfold chunks. rewrite H0, Z.div_small by lia. done.
Qed.

Lemma C10_negative_width_witness :
  Generator.integers (Example.gen 4) 5 5 (Some [3]) int32 false (Example.world 4)
  = (Raise OverflowError, allocated [3] uint32 Uninitialised (Example.world 4)).
Proof.
  destruct (C10_negative_width (Example.gen 4) 5 5 (Some [3]) int32 false
              (Example.world 4)) as (_ & _ & _ & _ & H & _);
    [by vm_compute|by vm_compute|by vm_compute|].
  simpl in H. destruct H as (H & _); [repeat constructor; lia|].
  apply H. right. split; [done|]. by vm_compute.
Defined.

(** [integers(5, 5, size=3)], a call with [high == low]: the claim has it
    return with the kernel launched on the width [-1]; the call ends in
    [OverflowError] and no kernel was invoked. *)
Lemma C10_counterexample :
  let call := Generator.integers (Example.gen 4) 5 5 (Some [3]) int32 false in
  diff_of 5 5 false = -1
  /\ (call (Example.world 4)).1 = Raise OverflowError
  /\ new_events call (Example.world 4) = [Alloc 1 uint32 3 Uninitialised].
Proof. vm_compute. done. Qed.

(** ** The rejected method *)

Lemma Forall_launches (P : event -> Prop) (Q : launch -> Prop) evs :
  Forall P evs -> (forall l, P (KernelCall l) -> Q l) -> Forall Q (launches evs).
Proof.
  intros Hall HPQ. induction Hall as [|e evs He _ IH]; [constructor|].
  unfold launches in *. destruct e; simpl; try done.
  constructor; [by apply HPQ|done].
Qed.

(** C5.  With the ziggurat method requested (['zig'] in the source),
    [standard_exponential] raises [NotImplementedError] and leaves the
    world as it was: nothing allocated, no kernel invoked.  Whatever the
    method, every kernel the call does invoke is the one exponential
    kernel, the inversion sampler, with no further argument. *)
Theorem C5_ziggurat_rejected (self : Generator.t) (size : option (list Z))
    (dtype : dtype) (out : option ndarray) (w : World) :
  Generator.standard_exponential self size dtype "zig" out w
  = (Raise (NotImplementedError "Ziggurat method is not supported"), w)
  /\ new_events (Generator.standard_exponential self size dtype "zig" out) w = []
  /\ forall method,
       Forall (fun l => k_func l = exponential /\ k_args l = [])
              (launches (new_events
                           (Generator.standard_exponential self size dtype method out) w)).
Proof.
  split; [done|]. split.
  - unfold new_events. simpl. apply drop_all.
  - intros method.
    eapply Forall_launches;
      [apply new_events_respects, respects_standard_exponential|].
    intros l [_ H]. by apply H.
Qed.

Example standard_exponential_inv :
  new_events (Generator.standard_exponential (Example.gen 4) (Some [3]) float64
                "inv" None) (Example.world 4)
  = [Alloc 1 float64 3 Uninitialised;
     KernelCall (mk_launch exponential CURAND_XOR_WOW (mk_devptr 0 0) (mk_devptr 1 0)
                           3 7 [])].
Proof. vm_compute. done. Qed.

(** ** Construction *)

Lemma respects_BitGenerator___init__ P seed : respects P (BitGenerator.__init__ seed).
Proof.
  unfold BitGenerator.__init__.
  apply respects_bind; [apply respects_threading_Lock|]. intros lock.
  apply respects_bind; [apply respects_Device_id|]. intros dev. apply respects_ret.
Qed.

Lemma respects___init__ ext c seed size :
  respects init_event (_cuRANDGenerator.__init__ ext c seed size).
Proof.
  unfold _cuRANDGenerator.__init__.
  apply respects_bind; [apply respects_BitGenerator___init__|]. intros base.
  apply respects_bind; [apply respects_lift|]. intros b_size.
  apply respects_bind; [by apply respects_ndarray_new|]. intros st.
  apply respects_bind; [apply respects_lift|]. intros c_seed.
  apply respects_bind; [apply respects_get_current_stream_ptr|]. intros strm.
  apply respects_bind; [apply respects_lift|]. intros seed_arg.
  apply respects_bind; [apply respects_lift|]. intros size_arg.
  apply respects_bind; [by apply respects_init_curand_generator|]. intros _.
  apply respects_ret.
Qed.

Lemma respects_perform self r : respects (sampling_event self) (perform self r).
Proof.
  destruct r; simpl.
  - eapply respects_mono; [|apply respects_integers]. apply integers_event_sampling.
  - apply respects_beta.
  - eapply respects_mono; [|apply respects_standard_exponential]. by intros e [H _].
Qed.

Lemma to_ssize_t_ok z : - 2 ^ 63 <= z < 2 ^ 63 -> to_ssize_t z = Ok z.
Proof.
  intros H. unfold to_ssize_t.
  destruct (Z.leb_spec (- 2 ^ 63) z), (Z.ltb_spec z (2 ^ 63)); (done || lia).
Qed.

Lemma to_uint64_t_ok z : 0 <= z < 2 ^ 64 -> to_uint64_t z = Ok z.
Proof.
  intros H. unfold to_uint64_t, to_unsigned.
  destruct (Z.leb_spec 0 z), (Z.ltb_spec z (2 ^ 64)); (done || lia).
Qed.

Lemma _type_size_pos ext c : 0 < _type_size ext c.
Proof. destruct c; simpl; lia. Qed.

(** A stream count [>= 0], a state size below [2^63] and a seed expansion
    within 64 bits are exactly the conditions under which the construction
    succeeds. *)
Lemma construction_succeeds_only_if ext c seed size w g :
  (_cuRANDGenerator.__init__ ext c seed size w).1 = Ok g ->
  0 <= size /\ _type_size ext c * size < 2 ^ 63
  /\ 0 <= generate_state ext seed < 2 ^ 64.
Proof.
  pose proof (_type_size_pos ext c) as Hpos.
  unfold _cuRANDGenerator.__init__, BitGenerator.__init__, cupy_zeros, ndarray_new,
    bind, lift, threading_Lock, Device_id, ret, raise, get_current_stream_ptr,
    init_curand_generator, device_alloc, to_ssize_t, to_uint64_t, to_unsigned.
  cbn [BitGenerator._seed_seq existsb].
  destruct (Z.leb_spec (- 2 ^ 63) (_type_size ext c * size)); [|done].
  destruct (Z.ltb_spec (_type_size ext c * size) (2 ^ 63)); [|done].
  cbn [andb].
  destruct (Z.ltb_spec (_type_size ext c * size) 0); [done|].
  cbn [orb].
  destruct (Z.leb_spec 0 (generate_state ext seed)); [|done].
  destruct (Z.ltb_spec (generate_state ext seed) (2 ^ 64)); [|done].
  intros _. split; [nia|]. split; [done|lia].
Qed.

(** C7.  The default stream count is 102400 and the per-stream state
    size of each of the three algorithms is positive.  Building a bit
    generator with a stream count [size >= 0] (state size below [2^63],
    seed expansion within 64 bits) succeeds; it allocates one buffer, of
    exactly [_type_size * size] bytes, all zero, and then invokes the
    initialisation kernel exactly once, with the algorithm tag, the address
    of that buffer, the expanded seed, [size] and the current stream.  No
    sampling method ever changes the length or element type of that
    buffer. *)
Theorem C7_state_allocation (ext : externals) (c : bitgen_class)
    (seed : option (list Z)) (size : Z) (w : World) :
  let b_size := _type_size ext c * size in
  let id := length (heap w) in
  0 <= size -> b_size < 2 ^ 63 -> 0 <= generate_state ext seed < 2 ^ 64 ->
  _cuRANDGenerator.default_size = 102400
  /\ (forall c', 0 < _type_size ext c')
  /\ exists g w',
       _cuRANDGenerator.__init__ ext c seed size w = (Ok g, w')
       /\ _cuRANDGenerator.class g = c
       /\ _cuRANDGenerator.state_size g = size
       /\ _cuRANDGenerator._state g = mk_ndarray id 0 [b_size] int8
       /\ new_events (_cuRANDGenerator.__init__ ext c seed size) w
          = [Alloc id int8 b_size Zeroed;
             InitCall (generator c) (mk_devptr id 0) (generate_state ext seed) size
                      (current_stream w)]
       /\ heap (cupy_zeros b_size int8 (BitGenerator.__init__ seed w).2).2 !! id
          = Some (mk_allocation int8 (replicate (Z.to_nat b_size) Zero))
       /\ (exists al, heap w' !! id = Some al /\ a_dtype al = int8
                      /\ Z.of_nat (length (a_data al)) = b_size)
       /\ forall r w2 al2,
            heap w2 !! id = Some al2 ->
            exists al3,
              heap (perform (Generator.mk g) r w2).2 !! id = Some al3
              /\ a_dtype al3 = a_dtype al2
              /\ length (a_data al3) = length (a_data al2).
Proof.
  intros b_size id Hsize Hfit Hseed.
  pose proof (_type_size_pos ext c) as Hpos.
  assert (0 <= b_size) as Hb by (unfold b_size; nia).
  assert (size <= b_size) as Hle by (unfold b_size; nia).
  assert (prod_shape [b_size] = b_size) as Hprod by (simpl; lia).
  split; [done|]. split; [apply _type_size_pos|].
  set (w_a := (BitGenerator.__init__ seed w).2).
  assert (cupy_zeros b_size int8 w_a
          = (Ok (mk_ndarray id 0 [b_size] int8), allocated [b_size] int8 Zeroed w_a))
    as Hzeros.
  { unfold cupy_zeros. rewrite ndarray_new_ok by (repeat constructor; lia). done. }
  set (w_b := allocated [b_size] int8 Zeroed w_a).
  set (g := _cuRANDGenerator.mk c (BitGenerator.mk (locks w) seed (current_device w))
              (generate_state ext seed) size (mk_ndarray id 0 [b_size] int8)).
  set (w' := log (InitCall (generator c) (mk_devptr id 0) (generate_state ext seed)
                           size (current_stream w))
                 (set_heap (touch (mk_devptr id 0) (heap w_b)) w_b)).
  assert (_cuRANDGenerator.__init__ ext c seed size w = (Ok g, w')) as Hrun.
  { unfold _cuRANDGenerator.__init__.
    unfold bind at 1. unfold BitGenerator.__init__ at 1.
    unfold bind at 1, threading_Lock at 1. unfold bind at 1, Device_id at 1.
    unfold ret at 1. cbn [BitGenerator._seed_seq].
    unfold bind at 1. fold b_size. rewrite to_ssize_t_ok by lia. unfold lift at 1.
    unfold bind at 1. change (mk_World _ _ _ _ _) with w_a. rewrite Hzeros.
    unfold bind at 1, lift at 1. rewrite to_uint64_t_ok by done.
    unfold bind at 1, get_current_stream_ptr at 1.
    unfold bind at 1, lift at 1.
    unfold bind at 1, lift at 1. rewrite to_ssize_t_ok by lia.
    unfold bind at 1, init_curand_generator, ret. reflexivity. }
  exists g, w'. split; [done|].
  split; [done|]. split; [done|]. split; [done|]. split; [|split; [|split]].
  - apply new_events_of. rewrite Hrun. cbn [snd]. unfold w', w_b, allocated. simpl.
    rewrite ?Z.mul_1_r, ?Hprod. by rewrite <- app_assoc.
  - fold w_a. rewrite Hzeros. simpl. rewrite lookup_app_r by done.
    rewrite Nat.sub_diag. simpl. by rewrite ?Z.mul_1_r, ?Hprod.
  - unfold w', w_b, allocated, touch. simpl.
    eexists. rewrite list_lookup_alter_eq, lookup_app_r by done.
    rewrite Nat.sub_diag. simpl. split; [done|]. split; [done|].
    cbn [a_data]. rewrite !length_replicate, ?Z.mul_1_r, ?Hprod. lia.
  - intros r w2 al2 H2.
    destruct (respects_perform (Generator.mk g) r w2) as [_ _ _ Hheap].
    exact (Hheap _ _ H2).
Qed.

Lemma C7_state_allocation_witness :
  new_events (_cuRANDGenerator.__init__ Example.ext MRG32k3a (Some [1]) 2) Example.w0
  = [Alloc 0 int8 144 Zeroed;
     InitCall CURAND_MRG32k3a (mk_devptr 0 0) 2021 2 7].
Proof.
  destruct (C7_state_allocation Example.ext MRG32k3a (Some [1]) 2 Example.w0)
    as (_ & _ & g & w' & _ & _ & _ & _ & Hev & _);
    [lia|by vm_compute|by vm_compute|].
  exact Hev.
Defined.

(** ** The lock *)

Lemma init_event_lock_free e : init_event e -> lock_free e.
Proof. by destruct e. Qed.

Lemma sampling_event_lock_free self e : sampling_event self e -> lock_free e.
Proof. by destruct e. Qed.

Lemma lock_held_lock_free k evs held :
  Forall lock_free evs -> lock_held k evs held = held.
Proof.
  intros H. revert held. unfold lock_held.
  induction H as [|e evs He _ IH]; intros held; [done|].
  simpl. destruct e; try done; apply IH.
Qed.

(** C9 (as amended).  Every bit generator gets a lock of its own when it
    is built, a new one, left unlocked.  That is all that ever happens to
    it: neither the construction, state initialisation included, nor any
    sampling call acquires or releases a lock, so whether a lock is held
    is the same after each of them as before. *)
Theorem C9_lock_never_acquired :
  (forall seed w,
     BitGenerator.__init__ seed w
     = (Ok (BitGenerator.mk (locks w) seed (current_device w)),
        mk_World (current_device w) (current_stream w) (heap w) (S (locks w))
                 (trace w)))
  /\ (forall ext c seed size w k held,
        Forall lock_free (new_events (_cuRANDGenerator.__init__ ext c seed size) w)
        /\ lock_held k (new_events (_cuRANDGenerator.__init__ ext c seed size) w) held
           = held)
  /\ (forall self r w k held,
        Forall lock_free (new_events (perform self r) w)
        /\ lock_held k (new_events (perform self r) w) held = held).
Proof.
  split; [done|]. split.
  - intros ext c seed size w k held.
    assert (Forall lock_free
              (new_events (_cuRANDGenerator.__init__ ext c seed size) w)) as H.
    { eapply Forall_impl; [apply new_events_respects, respects___init__|].
      apply init_event_lock_free. }
    split; [done|]. by apply lock_held_lock_free.
  - intros self r w k held.
    assert (Forall lock_free (new_events (perform self r) w)) as H.
    { eapply Forall_impl; [apply new_events_respects, respects_perform|].
      apply sampling_event_lock_free. }
    split; [done|]. by apply lock_held_lock_free.
Qed.

(** The run [XORWOW(seed=1, size=2)] followed by [beta(1.0, 2.0, size=5)]:
    the generator's lock is lock 0, and it is held neither when the state
    is initialised (the log entry at position 1) nor at any of the three
    kernel launches of the dispatch (positions 3, 4 and 5). *)
Lemma C9_counterexample :
  let evs :=
    trace (Generator.beta (Example.gen 2) (PyFloat 1) (PyFloat 2) (Some [5])
             float64 (Example.world 2)).2 in
  BitGenerator.lock (_cuRANDGenerator.base (Example.bitgen 2)) = 0%nat
  /\ is_launch <$> evs = [false; false; false; true; true; true]
  /\ evs !! 1%nat
     = Some (InitCall CURAND_XOR_WOW (mk_devptr 0 0) 2021 2 7)
  /\ (fun i => lock_held 0 (take i evs) false) <$> [1; 3; 4; 5]%nat
     = [false; false; false; false].
Proof. vm_compute. done. Qed.

(** ** Reading back what was written *)

Lemma write_range_exact off vals data :
  (off + length vals <= length data)%nat ->
  write_range off vals data = take off data ++ vals ++ drop (off + length vals) data.
Proof.
  intros H. unfold write_range. apply take_ge.
  rewrite !length_app, length_take, length_drop. lia.
Qed.

Lemma read_write_range off vals data :
  (off + length vals <= length data)%nat ->
  take (length vals) (drop off (write_range off vals data)) = vals.
Proof.
  intros H. rewrite write_range_exact by done.
  rewrite drop_app_length' by (rewrite length_take; lia).
  apply take_app_length.
Qed.

Lemma write_range_all vals data :
  length vals = length data -> write_range 0 vals data = vals.
Proof.
  intros H. rewrite write_range_exact by lia. simpl.
  rewrite drop_ge by lia. apply app_nil_r.
Qed.

Lemma Forall_write_range (P : value -> Prop) off vals data :
  Forall P vals -> Forall P data -> Forall P (write_range off vals data).
Proof.
  intros Hv Hd. unfold write_range. apply Forall_take.
  apply Forall_app; split; [by apply Forall_take|].
  apply Forall_app; split; [done|by apply Forall_drop].
Qed.

Lemma read_store a vals h al :
  h !! nd_alloc a = Some al ->
  length vals = Z.to_nat (nd_size a) ->
  (Z.to_nat (nd_off a) + length vals <= length (a_data al))%nat ->
  read a (store (data_ptr a) vals h) = vals.
Proof.
  intros Hal Hlen Hfit. unfold read, store. simpl.
  rewrite list_lookup_alter_eq, Hal. simpl. rewrite <- Hlen.
  by apply read_write_range.
Qed.

Lemma read_store_other a p vals h :
  nd_alloc a <> p_alloc p -> read a (store p vals h) = read a h.
Proof.
  intros Hne. unfold read, store. by rewrite list_lookup_alter_ne.
Qed.

Lemma read_whole a h al :
  h !! nd_alloc a = Some al -> nd_off a = 0 ->
  length (a_data al) = Z.to_nat (nd_size a) ->
  read a h = a_data al.
Proof.
  intros Hal Hoff Hlen. unfold read. rewrite Hal, Hoff. simpl.
  rewrite drop_0. apply take_ge. lia.
Qed.

(** ** What the launches leave in the output buffer *)

Lemma kernel_effect_other j l h b :
  p_alloc (k_state l) <> b -> p_alloc (k_out l) <> b ->
  kernel_effect j l h !! b = h !! b.
Proof.
  intros Hs Ho. unfold kernel_effect, store, touch.
  by rewrite !list_lookup_alter_ne.
Qed.

Lemma kernel_effect_fills j l h al :
  p_alloc (k_state l) <> p_alloc (k_out l) ->
  h !! p_alloc (k_out l) = Some al ->
  p_off (k_out l) = 0 ->
  Z.to_nat (k_size l) = length (a_data al) ->
  kernel_effect j l h !! p_alloc (k_out l)
  = Some (mk_allocation (a_dtype al) (Sample j <$> seq 0 (length (a_data al)))).
Proof.
  intros Hs Hal Hoff Hsize. unfold kernel_effect, store, touch.
  rewrite list_lookup_alter_eq, list_lookup_alter_ne, Hal by done. simpl.
  rewrite Hoff, Hsize. f_equal. f_equal. apply write_range_all.
  by rewrite length_fmap, length_seq.
Qed.

Lemma kernel_effect_keeps j0 j l h b :
  (j0 <= j)%nat ->
  p_alloc (k_state l) <> b ->
  cell_all (written_since j0) b h ->
  cell_all (written_since j0) b (kernel_effect j l h).
Proof.
  intros Hj Hs (al & Hal & Hall). unfold cell_all, kernel_effect, store.
  destruct (decide (p_alloc (k_out l) = b)) as [<-|Hne].
  - rewrite list_lookup_alter_eq. unfold touch. rewrite list_lookup_alter_ne, Hal by done.
    simpl. eexists. split; [done|]. simpl. apply Forall_write_range; [|done].
    apply Forall_fmap, Forall_forall. intros k _. by exists j, k.
  - rewrite list_lookup_alter_ne by done. unfold touch.
    rewrite list_lookup_alter_ne by done. by exists al.
Qed.

Lemma after_launches_keeps j0 ls w b :
  Forall (fun l => p_alloc (k_state l) <> b) ls ->
  (j0 <= length (trace w))%nat ->
  cell_all (written_since j0) b (heap w) ->
  cell_all (written_since j0) b (heap (after_launches ls w)).
Proof.
  intros Hls. revert w. induction Hls as [|l ls Hl _ IH]; intros w Hj Hcell; [done|].
  unfold after_launches in *. simpl. apply IH.
  - simpl. rewrite length_app. lia.
  - simpl. by apply kernel_effect_keeps.
Qed.

Lemma launch_of_first self func cargs s y d0 rest bsize :
  nd_shape y = d0 :: rest -> 0 <= d0 -> nd_off y = 0 ->
  launch_of self func cargs s (slice_from y d0 rest (0 * bsize))
  = launch_of self func cargs s y.
Proof.
  intros Hshape Hd Hoff. unfold launch_of, slice_from, data_ptr, nd_size. simpl.
  unfold slice_start. simpl. rewrite Z.min_l by done. rewrite Hshape, Hoff. simpl.
  f_equal. f_equal. lia.
Qed.

(** On an output array that starts its own allocation and fills it, with a
    stream count [>= 0], the dispatcher succeeds and leaves in every
    element a value written by one of its launches. *)
Lemma dispatch_fills self func y args cargs d0 rest al w :
  let bg := Generator._bit_generator self in
  device_ok self w ->
  0 <= _cuRANDGenerator.state_size bg ->
  coerce_args (extra_params func) args = Ok cargs ->
  nd_shape y = d0 :: rest -> 0 <= d0 -> nd_off y = 0 ->
  heap w !! nd_alloc y = Some al ->
  length (a_data al) = Z.to_nat (nd_size y) ->
  nd_alloc (_cuRANDGenerator._state bg) <> nd_alloc y ->
  exists w2 al2,
    Generator._launch_distribution_kernel self func y args w = (Ok tt, w2)
    /\ heap w2 !! nd_alloc y = Some al2
    /\ length (a_data al2) = length (a_data al)
    /\ Forall (written_since (length (trace w))) (a_data al2)
    /\ sizes_kept (heap w) (heap w2).
Proof.
  intros bg Hdev HS Hargs Hshape Hd0 Hoff Hal Hlen Hstate.
  set (bsize := _cuRANDGenerator.state_size bg) in *.
  set (l0 := launch_of self func cargs (current_stream w) y).
  assert (p_alloc (k_state l0) <> p_alloc (k_out l0)) as Hne0 by done.
  assert (cell_all (written_since (length (trace w))) (nd_alloc y)
                   (heap (after_launch l0 w))) as Hfirst.
  { unfold after_launch. simpl.
    exists (mk_allocation (a_dtype al)
              (Sample (length (trace w)) <$> seq 0 (length (a_data al)))).
    split.
    - apply (kernel_effect_fills _ l0 _ al); [done|done|done|]. by rewrite Hlen.
    - simpl. apply Forall_fmap, Forall_forall. intros k _. by eexists _, k. }
  assert (exists w2,
            Generator._launch_distribution_kernel self func y args w = (Ok tt, w2)
            /\ (length (a_data al) <> 0%nat ->
                cell_all (written_since (length (trace w))) (nd_alloc y) (heap w2)))
    as (w2 & Hrun & Hcell).
  { destruct (decide (bsize = 0)) as [E0|E0].
    - eexists. split; [by apply dispatch_single|]. intros _. exact Hfirst.
    - eexists. split; [by apply (dispatch_chunks self func y args cargs d0 rest)|].
      intros Hpos. fold bg bsize.
      pose proof (ceil_div_bounds (nd_size y) bsize ltac:(lia)) as Hc.
      set (c := (nd_size y + bsize - 1) / bsize) in *.
      assert (0 < c) as Hc0 by nia.
      unfold range. rewrite seqZ_cons by done. rewrite fmap_cons.
      rewrite launch_of_first by done. fold l0.
      change (after_launches (l0 :: ?ls) w)
        with (after_launches ls (after_launch l0 w)).
      apply after_launches_keeps; [|simpl; rewrite length_app; lia|done].
      apply Forall_fmap, Forall_forall. intros i _. simpl. done. }
  destruct (respects__launch_distribution_kernel self func y args w)
    as [_ _ _ Hkept].
  rewrite Hrun in Hkept. simpl in Hkept.
  destruct (Hkept _ _ Hal) as (al2 & Hal2 & _ & Hlen2).
  exists w2, al2. split; [done|]. split; [done|]. split; [done|]. split; [|done].
  destruct (decide (length (a_data al) = 0%nat)) as [Hz|Hnz].
  - rewrite Hz in Hlen2. apply nil_length_inv in Hlen2. rewrite Hlen2. constructor.
  - destruct (Hcell Hnz) as (al2' & Hal2' & Hall). congruence.
Qed.

(** ** Assignment between arrays of one shape *)



Lemma written_since_mono j0 j1 v :
  (j0 <= j1)%nat -> written_since j1 v -> written_since j0 v.
Proof. intros Hle (j & k & -> & Hj). exists j, k. split; [done|lia]. Qed.

(** ** The destination of [standard_exponential] *)





Example standard_exponential_out :
  let dest := mk_ndarray 1 1 [3] float32 in
  let r := Generator.standard_exponential (Example.gen 4) (Some [3]) float64 "inv"
             (Some dest) (Example.world_out 4 [5]) in
  r.1 = Ok dest
  /\ a_data <$> heap r.2 !! 1%nat
     = Some [Garbage; Cast float32 (Sample 4 0); Cast float32 (Sample 4 1);
             Cast float32 (Sample 4 2); Garbage]
  /\ a_data <$> heap r.2 !! 2%nat = Some [Sample 4 0; Sample 4 1; Sample 4 2].
Proof. vm_compute. done. Qed.

(** ** Where the launches write *)

Lemma slice_start_bounds k d0 : 0 <= d0 -> 0 <= slice_start k d0 <= d0.
Proof. intros H. unfold slice_start. destruct (Z.ltb_spec k 0); lia. Qed.

Lemma respects_dispatch_within self func out args :
  Forall (fun n => 0 <= n) (nd_shape out) ->
  respects (is_launch_with (within out))
           (Generator._launch_distribution_kernel self func out args).
Proof.
  intros Hshape.
  pose proof (prod_shape_nonneg _ Hshape) as Hsize. fold (nd_size out) in Hsize.
  unfold Generator._launch_distribution_kernel.
  apply respects_bind; [apply respects_get_current_stream_ptr|]. intros strm.
  apply respects_bind; [apply respects_state|]. intros p.
  set (bsize := _cuRANDGenerator.state_size (Generator._bit_generator self)).
  destruct (bsize =? 0).
  - apply respects_call. intros cargs _. eexists. split; [done|].
    unfold within. simpl. lia.
  - apply respects_bind; [apply respects_lift|]. intros chunks.
    apply respects_for_each. intros i.
    destruct (nd_shape out) as [|d0 rest] eqn:Eshape.
    + intros w. unfold bind, lift, getitem_from. rewrite Eshape. apply evolves_refl.
    + eapply (respects_bind_post _
                (fun chunk => chunk = slice_from out d0 rest (i * bsize)));
        [apply respects_lift| |].
      { intros w a. unfold lift, getitem_from. rewrite Eshape. simpl.
        by intros [= <-]. }
      intros chunk ->. apply respects_call. intros cargs _.
      eexists. split; [done|].
      assert (0 <= d0 /\ 0 <= prod_shape rest) as [Hd0 Hrest].
      { inversion Hshape; subst. split; [done|]. by apply prod_shape_nonneg. }
      pose proof (slice_start_bounds (i * bsize) d0 Hd0) as Hstart.
      assert (nd_size out = d0 * prod_shape rest) as Hout.
      { unfold nd_size. by rewrite Eshape. }
      unfold within, slice_from, nd_size. simpl.
      fold (nd_size out). rewrite Hout.
      generalize (slice_start (i * bsize) d0) (prod_shape rest) Hrest Hstart.
      intros st R HR Hst. nia.
Qed.

(** X1.  Whatever the stream count and whether or not the call succeeds,
    every kernel invocation the dispatcher issues for an output array
    (no negative extent) writes inside that array: into its allocation,
    from an offset at or after its first element, a non-negative number of
    elements, up to exactly its last element. *)
Theorem launches_stay_inside_output (self : Generator.t) (func : kernel)
    (out : ndarray) (args : list pyobj) (w : World) (l : launch) :
  Forall (fun n => 0 <= n) (nd_shape out) ->
  KernelCall l ∈ new_events (Generator._launch_distribution_kernel self func out args) w ->
  p_alloc (k_out l) = nd_alloc out
  /\ nd_off out <= p_off (k_out l)
  /\ 0 <= k_size l
  /\ p_off (k_out l) + k_size l = nd_off out + nd_size out.
Proof.
  intros Hshape Hin.
  pose proof (new_events_respects _ _ w
                (respects_dispatch_within self func out args Hshape)) as Hall.
  rewrite Forall_forall in Hall. destruct (Hall _ Hin) as (l' & [= <-] & H). exact H.
Qed.

Lemma launches_stay_inside_output_witness :
  let l := mk_launch cupy_distributions.beta CURAND_XOR_WOW (mk_devptr 0 0)
                     (mk_devptr 1 6) 0 7 [CDouble (PyFloat 1); CDouble (PyFloat 2)] in
  p_off (k_out l) + k_size l = nd_off (Example.out [2; 3]) + nd_size (Example.out [2; 3]).
Proof.
  intros l.
  apply (launches_stay_inside_output (Example.gen 4) cupy_distributions.beta
           (Example.out [2; 3]) Example.ab (Example.world_out 4 [2; 3]) l).
  - repeat constructor; lia.
  - vm_compute. constructor 2. constructor 1.
Defined.

(** X2.  The launches for a one-dimensional buffer of [N] elements with a
    stream count [S > 0], in full: the call appends to the log exactly one
    invocation per index [i] of [range((N + S - 1) // S)], at offset
    [i * S] and over the [N - i * S] elements from there to the end of the
    buffer. *)
Theorem dispatch_plan_1d (self : Generator.t) (func : kernel) (out : ndarray)
    (args : list pyobj) (cargs : list cvalue) (N : Z) (w : World) :
  let bg := Generator._bit_generator self in
  let S := _cuRANDGenerator.state_size bg in
  0 < S -> 0 <= N ->
  nd_shape out = [N] ->
  device_ok self w ->
  coerce_args (extra_params func) args = Ok cargs ->
  (Generator._launch_distribution_kernel self func out args w).1 = Ok tt
  /\ new_events (Generator._launch_distribution_kernel self func out args) w
     = (fun i => KernelCall
                   (mk_launch func (generator (_cuRANDGenerator.class bg))
                      (data_ptr (_cuRANDGenerator._state bg))
                      (mk_devptr (nd_alloc out) (nd_off out + i * S)) (N - i * S)
                      (current_stream w) cargs))
       <$> range ((N + S - 1) / S).
Proof.
  intros bg S HS HN Hshape Hdev Hargs.
  pose proof (ceil_div_bounds N S HS) as Hc.
  assert (nd_size out = N) as Hsize.
  { unfold nd_size. rewrite Hshape. simpl. lia. }
  pose proof (dispatch_chunks self func out args cargs N [] w Hdev Hshape) as Hrun.
  cbv zeta in Hrun. fold bg S in Hrun. rewrite Hsize in Hrun.
  specialize (Hrun ltac:(lia) Hargs).
  split; [by rewrite Hrun|].
  apply new_events_of. rewrite Hrun. cbn [snd]. rewrite trace_after_launches. f_equal.
  rewrite <- list_fmap_compose. apply Forall_fmap_ext_1, Forall_forall.
  intros i Hi. unfold range in Hi. apply elem_of_seqZ in Hi. simpl.
  f_equal. apply launch_of_1d; [done|nia].
Qed.

Lemma dispatch_plan_1d_witness :
  chunk_plan (new_events
                (Generator._launch_distribution_kernel (Example.gen 2)
                   cupy_distributions.beta (Example.out [5]) Example.ab)
                (Example.world_out 2 [5]))
  = [(0, 5); (2, 3); (4, 1)].
Proof.
  destruct (dispatch_plan_1d (Example.gen 2) cupy_distributions.beta
              (Example.out [5]) Example.ab
              [CDouble (PyFloat 1); CDouble (PyFloat 2)] 5
              (Example.world_out 2 [5])) as [_ H];
    [simpl; lia|lia|reflexivity|reflexivity|reflexivity|].
  rewrite H. reflexivity.
Defined.

(** ** Arguments of the wrong range, in general *)

Lemma for_each_rejected (idx : list Z) (body : Z -> M unit) w :
  (forall i, (body i w).2 = w /\ (body i w).1 <> Ok tt) ->
  (for_each idx body w).2 = w
  /\ ((for_each idx body w).1 = Ok tt -> idx = []).
Proof.
  intros Hb. destruct idx as [|i idx]; [done|].
  simpl. unfold bind. destruct (Hb i) as [Hw Hr].
  destruct (body i w) as [[[]|e] w1]; simpl in *; [done|]. by subst.
Qed.

(** X3.  When the wrapper of the kernel refuses the trailing arguments (a
    wrong count; or, for an unsigned parameter, an int or the integer part
    of a float that is negative or too large, a float that is a NaN or an
    infinity; or, for a double parameter, an int too large for a double),
    the dispatcher invokes no kernel and changes nothing at all; it
    returns normally only if there was no chunk to launch, that is with a
    nonzero stream count and a chunk count of 0 or less. *)
Theorem dispatch_rejected_arguments (self : Generator.t) (func : kernel)
    (out : ndarray) (args : list pyobj) (e : exn) (w : World) :
  let S := _cuRANDGenerator.state_size (Generator._bit_generator self) in
  coerce_args (extra_params func) args = Raise e ->
  (Generator._launch_distribution_kernel self func out args w).2 = w
  /\ ((Generator._launch_distribution_kernel self func out args w).1 = Ok tt ->
      S <> 0 /\ (nd_size out + S - 1) / S <= 0).
Proof.
  intros S Hargs.
  enough (exists res,
            Generator._launch_distribution_kernel self func out args w = (res, w)
            /\ (res = Ok tt -> S <> 0 /\ (nd_size out + S - 1) / S <= 0))
    as (res & -> & H) by done.
  unfold Generator._launch_distribution_kernel.
  unfold bind at 1. unfold get_current_stream_ptr at 1. unfold bind at 1.
  destruct (decide (device_ok self w)) as [Hdev|Hdev].
  - rewrite (state_ok _ _ Hdev). fold S.
    destruct (Z.eqb_spec S 0) as [E0|E0].
    + unfold call, bind, lift. rewrite Hargs. by eexists.
    + unfold bind at 1. unfold floordiv, lift at 1.
      destruct (Z.eqb_spec S 0) as [|_]; [done|].
      set (body := fun i : Z => _).
      destruct (for_each_rejected (range ((nd_size out + S - 1) / S)) body w)
        as [Hw Hr].
      { intros i. unfold body, bind, lift.
        destruct (getitem_from out (i * S)) as [chunk|e']; [|done].
        unfold call, bind, lift. rewrite Hargs. done. }
      destruct (for_each _ body w) as [res w1]. simpl in *. subst w1.
      exists res. split; [done|]. intros Hok. split; [done|].
      specialize (Hr Hok). unfold range in Hr.
      destruct (Z.le_gt_cases ((nd_size out + S - 1) / S) 0) as [|Hpos]; [done|].
      rewrite seqZ_cons in Hr by lia. done.
  - rewrite (state_wrong_device _ _ Hdev). by eexists.
Qed.

Lemma dispatch_rejected_arguments_witness :
  (Generator._launch_distribution_kernel (Example.gen 2) interval_32
     (Example.out [5]) [PyInt (-1); PyInt 1] (Example.world_out 2 [5])).2
  = Example.world_out 2 [5].
Proof.
  apply (dispatch_rejected_arguments (Example.gen 2) interval_32 (Example.out [5])
           [PyInt (-1); PyInt 1] OverflowError (Example.world_out 2 [5])).
  reflexivity.
Defined.

(** A float width that has an integer part within range is not refused:
    [2.5] reaches the 32-bit interval kernel as 2, once per chunk. *)
Example dispatch_float_width :
  launches (new_events
              (Generator._launch_distribution_kernel (Example.gen 2) interval_32
                 (Example.out [5]) [PyFloat 0x4004000000000000; PyInt 3])
              (Example.world_out 2 [5]))
  = (fun p => mk_launch interval_32 CURAND_XOR_WOW (mk_devptr 0 0)
                        (mk_devptr 1 p.1) p.2 7 [CUInt32 2; CUInt32 3])
    <$> [(0, 5); (2, 3); (4, 1)].
Proof. reflexivity. Qed.

(** ** Which launch has the last word on an element *)

Lemma lookup_write_range off vals data i :
  (off + length vals <= length data)%nat ->
  write_range off vals data !! i
  = if decide (off <= i < off + length vals)%nat
    then vals !! (i - off)%nat else data !! i.
Proof.
  intros Hfit. rewrite write_range_exact by done.
  destruct (decide (off <= i < off + length vals)%nat) as [Hin|Hout].
  - rewrite lookup_app_r by (rewrite length_take; lia).
    rewrite length_take, Nat.min_l by lia.
    rewrite lookup_app_l by lia. done.
  - destruct (decide (i < off)%nat).
    + rewrite lookup_app_l by (rewrite length_take; lia).
      by rewrite lookup_take_lt.
    + rewrite lookup_app_r by (rewrite length_take; lia).
      rewrite length_take, Nat.min_l by lia.
      rewrite lookup_app_r by lia. rewrite lookup_drop. f_equal. lia.
Qed.

Lemma kernel_effect_lookup j l h al :
  p_alloc (k_state l) <> p_alloc (k_out l) ->
  h !! p_alloc (k_out l) = Some al ->
  kernel_effect j l h !! p_alloc (k_out l)
  = Some (mk_allocation (a_dtype al)
            (write_range (Z.to_nat (p_off (k_out l)))
                         (Sample j <$> seq 0 (Z.to_nat (k_size l))) (a_data al))).
Proof.
  intros Hs Hal. unfold kernel_effect, store, touch.
  by rewrite list_lookup_alter_eq, list_lookup_alter_ne, Hal.
Qed.

Lemma after_chunks_contents (L : Z -> launch) (st : devptr) (b : nat)
    (o N S : Z) (j0 : nat) :
  0 < S -> 0 <= N -> 0 <= o ->
  p_alloc st <> b ->
  (forall i, k_state (L i) = st /\ k_out (L i) = mk_devptr b (o + i * S)
             /\ k_size (L i) = N - i * S) ->
  forall (n : nat) (m : Z) (w : World) (al : allocation),
    0 <= m ->
    (m + Z.of_nat n) * S < N + S ->
    heap w !! b = Some al ->
    (Z.to_nat o + Z.to_nat N <= length (a_data al))%nat ->
    length (trace w) = (j0 + Z.to_nat m)%nat ->
    (forall k, 0 <= k < N -> k < m * S ->
               a_data al !! Z.to_nat (o + k)
               = Some (Sample (j0 + Z.to_nat (k / S)) (Z.to_nat (k mod S)))) ->
    exists al',
      heap (after_launches (L <$> seqZ m (Z.of_nat n)) w) !! b = Some al'
      /\ forall k, 0 <= k < N -> k < (m + Z.of_nat n) * S ->
                   a_data al' !! Z.to_nat (o + k)
                   = Some (Sample (j0 + Z.to_nat (k / S)) (Z.to_nat (k mod S))).
Proof.
  intros HS HN Ho Hst HL. induction n as [|n IH]; intros m w al Hm Hlast Hal Hfit Hj HJ.
  - exists al. split; [done|]. intros k Hk Hkm. apply HJ; [done|lia].
  - rewrite seqZ_cons by lia. rewrite fmap_cons.
    change (after_launches (L m :: ?ls) w)
      with (after_launches ls (after_launch (L m) w)).
    replace (Z.pred (Z.of_nat (Datatypes.S n))) with (Z.of_nat n) by lia.
    replace (Z.succ m) with (m + 1) by lia.
    destruct (HL m) as (HLs & HLo & HLn).
    assert (m * S < N) as HmN by nia.
    set (al1 := mk_allocation (a_dtype al)
                  (write_range (Z.to_nat (o + m * S))
                     (Sample (j0 + Z.to_nat m) <$> seq 0 (Z.to_nat (N - m * S)))
                     (a_data al))).
    assert (heap (after_launch (L m) w) !! b = Some al1) as Hal1.
    { unfold after_launch. simpl. rewrite Hj.
      pose proof (kernel_effect_lookup (j0 + Z.to_nat m) (L m) (heap w) al) as H.
      rewrite HLs, HLo, HLn in H. simpl in H. apply H; done. }
    destruct (IH (m + 1) (after_launch (L m) w) al1) as (al' & Hal' & HJ');
      [lia|lia|exact Hal1| | | |].
    + simpl. rewrite length_write_range. done.
    + simpl. rewrite length_app, Hj. simpl. lia.
    + intros k Hk Hkm. simpl.
      rewrite lookup_write_range
        by (rewrite length_fmap, length_seq; nia).
      rewrite length_fmap, length_seq.
      destruct (decide (Z.to_nat (o + m * S) <= Z.to_nat (o + k)
                        < Z.to_nat (o + m * S) + Z.to_nat (N - m * S))%nat)
        as [Hin|Hout].
      * assert (m * S <= k) as Hlo by nia.
        assert (k / S = m) as Hq.
        { symmetry. apply (Z.div_unique k S m (k - m * S)); lia. }
        assert (k mod S = k - m * S) as Hr.
        { symmetry. apply (Z.mod_unique k S m (k - m * S)); lia. }
        rewrite list_lookup_fmap, Hq, Hr.
        replace (Z.to_nat (o + k) - Z.to_nat (o + m * S))%nat
          with (Z.to_nat (k - m * S)) by nia.
        rewrite lookup_seq_lt by nia. done.
      * apply HJ; [done|]. nia.
    + exists al'. split; [done|]. intros k Hk Hkm. apply HJ'; [done|lia].
Qed.

(** X4.  After a chunked dispatch on a one-dimensional buffer of [N]
    elements (stream count [S > 0], the buffer lying inside an allocation
    other than the generator's state), element [k] of the buffer is the
    element number [k mod S] written by invocation number [k // S] of the
    call: the later, shorter chunks overwrite what the earlier ones wrote
    past their first [S] elements. *)
Theorem chunked_dispatch_last_writer (self : Generator.t) (func : kernel)
    (out : ndarray) (args : list pyobj) (cargs : list cvalue) (N : Z)
    (al : allocation) (w : World) :
  let bg := Generator._bit_generator self in
  let S := _cuRANDGenerator.state_size bg in
  0 < S -> 0 <= N ->
  nd_shape out = [N] -> 0 <= nd_off out ->
  device_ok self w ->
  coerce_args (extra_params func) args = Ok cargs ->
  heap w !! nd_alloc out = Some al ->
  (Z.to_nat (nd_off out) + Z.to_nat N <= length (a_data al))%nat ->
  nd_alloc (_cuRANDGenerator._state bg) <> nd_alloc out ->
  exists w',
    Generator._launch_distribution_kernel self func out args w = (Ok tt, w')
    /\ forall k, 0 <= k < N ->
         read out (heap w') !! Z.to_nat k
         = Some (Sample (length (trace w) + Z.to_nat (k / S)) (Z.to_nat (k mod S))).
Proof.
  intros bg S HS HN Hshape Hoff Hdev Hargs Hal Hfit Hst.
  pose proof (ceil_div_bounds N S HS) as Hc.
  assert (nd_size out = N) as Hsize.
  { unfold nd_size. rewrite Hshape. simpl. lia. }
  pose proof (dispatch_chunks self func out args cargs N [] w Hdev Hshape) as Hrun.
  cbv zeta in Hrun. fold bg S in Hrun. rewrite Hsize in Hrun.
  specialize (Hrun ltac:(lia) Hargs).
  set (c := (N + S - 1) / S) in *.
  assert (0 <= c) as Hc0 by nia.
  set (L := fun i => mk_launch func (generator (_cuRANDGenerator.class bg))
                       (data_ptr (_cuRANDGenerator._state bg))
                       (mk_devptr (nd_alloc out) (nd_off out + i * S)) (N - i * S)
                       (current_stream w) cargs).
  assert ((fun i => launch_of self func cargs (current_stream w)
                      (slice_from out N [] (i * S))) <$> range c
          = L <$> range c) as HLs.
  { apply Forall_fmap_ext_1, Forall_forall. intros i Hi.
    unfold range in Hi. apply elem_of_seqZ in Hi. apply launch_of_1d; [done|nia]. }
  rewrite HLs in Hrun. unfold range in Hrun.
  destruct (after_chunks_contents L (data_ptr (_cuRANDGenerator._state bg))
              (nd_alloc out) (nd_off out) N S (length (trace w))
              HS HN Hoff Hst ltac:(done) (Z.to_nat c) 0 w al)
    as (al' & Hal' & Hcontent); [done|lia|done|done|simpl; lia|intros; lia|].
  rewrite Z2Nat.id in Hal', Hcontent by done.
  eexists. split; [exact Hrun|]. intros k Hk.
  unfold read. rewrite Hal', Hsize.
  rewrite lookup_take_lt by lia. rewrite lookup_drop.
  replace (Z.to_nat (nd_off out) + Z.to_nat k)%nat with (Z.to_nat (nd_off out + k))
    by lia.
  apply Hcontent; [done|lia].
Qed.

Lemma chunked_dispatch_last_writer_witness :
  read (Example.out [5])
       (heap (Generator._launch_distribution_kernel (Example.gen 2)
                cupy_distributions.beta (Example.out [5]) Example.ab
                (Example.world_out 2 [5])).2) !! 3%nat
  = Some (Sample 4 1).
Proof.
  destruct (chunked_dispatch_last_writer (Example.gen 2) cupy_distributions.beta
              (Example.out [5]) Example.ab
              [CDouble (PyFloat 1); CDouble (PyFloat 2)] 5
              (mk_allocation float64 (replicate 5 Garbage))
              (Example.world_out 2 [5]))
    as (w' & Hrun & Hk);
    [simpl; lia|lia|reflexivity|simpl; lia|reflexivity|reflexivity|reflexivity
    |simpl; lia|simpl; lia|].
  rewrite Hrun. exact (Hk 3 ltac:(lia)).
Defined.

(** ** Which allocations a call can change *)

Lemma steps_ret {A} R `{!Reflexive R} (a : A) : steps R (ret a).
Proof. intros w. simpl. reflexivity. Qed.

Lemma steps_raise {A} R `{!Reflexive R} e : steps R (@raise A e).
Proof. intros w. simpl. reflexivity. Qed.

Lemma steps_lift {A} R `{!Reflexive R} (r : result A) : steps R (lift r).
Proof. intros w. simpl. reflexivity. Qed.

Lemma steps_bind {A B} R `{!Transitive R} (m : M A) (k : A -> M B) :
  steps R m -> (forall a, steps R (k a)) -> steps R (bind m k).
Proof.
  intros Hm Hk w. unfold bind. specialize (Hm w).
  destruct (m w) as [[a|e] w1]; simpl in *; [|done].
  etrans; [exact Hm|apply Hk].
Qed.

Lemma steps_for_each {A} R `{!Reflexive R} `{!Transitive R}
    (l : list A) (body : A -> M unit) :
  (forall i, steps R (body i)) -> steps R (for_each l body).
Proof.
  intros Hb. induction l as [|i l IH]; simpl.
  - by apply steps_ret.
  - apply steps_bind; [done|apply Hb|intros _; apply IH].
Qed.

Global Instance writes_only_refl may : Reflexive (writes_only may).
Proof. intros w. by split. Qed.

Global Instance writes_only_trans may : Transitive (writes_only may).
Proof.
  intros w1 w2 w3 [Hl1 H1] [Hl2 H2]. split; [congruence|].
  intros i Hi. rewrite H2, H1; done.
Qed.

Lemma writes_only_after_launch (may : nat -> Prop) l w :
  may (p_alloc (k_state l)) -> may (p_alloc (k_out l)) ->
  writes_only may w (after_launch l w).
Proof.
  intros Hs Ho. unfold after_launch, kernel_effect, store, touch. split; simpl.
  - by rewrite !length_alter.
  - intros i Hi. rewrite !list_lookup_alter_ne; [done| |]; congruence.
Qed.

Lemma steps_bind_post {A B} R `{!Transitive R} (Q : A -> Prop)
    (m : M A) (k : A -> M B) :
  steps R m ->
  (forall w a, (m w).1 = Ok a -> Q a) ->
  (forall a, Q a -> steps R (k a)) ->
  steps R (bind m k).
Proof.
  intros Hm HQ Hk w. unfold bind. specialize (Hm w). specialize (HQ w).
  destruct (m w) as [[a|e] w1]; simpl in *; [|done].
  etrans; [exact Hm|]. apply Hk. by apply HQ.
Qed.

Lemma state_keeps_world self w : (_cuRANDGenerator.state self w).2 = w.
Proof.
  unfold _cuRANDGenerator.state, BitGenerator._check_device, bind, Device_id.
  by destruct (negb _).
Qed.

Lemma getitem_from_alloc out k chunk :
  getitem_from out k = Ok chunk -> nd_alloc chunk = nd_alloc out.
Proof.
  unfold getitem_from. destruct (nd_shape out); [done|]. by intros [= <-].
Qed.

Lemma steps_dispatch self func out args :
  steps (writes_only (fun i =>
           i = nd_alloc (_cuRANDGenerator._state (Generator._bit_generator self))
           \/ i = nd_alloc out))
        (Generator._launch_distribution_kernel self func out args).
Proof.
  set (may := fun i => _ \/ _).
  assert (forall g p o n strm,
            p_alloc p = nd_alloc (_cuRANDGenerator._state (Generator._bit_generator self)) ->
            p_alloc o = nd_alloc out ->
            steps (writes_only may) (call func g p o n strm args)) as Hcall.
  { intros g p o n strm Hp Ho w. unfold call, bind, lift.
    destruct (coerce_args _ _); simpl; [|reflexivity].
    apply writes_only_after_launch; simpl; unfold may; [left|right]; done. }
  unfold Generator._launch_distribution_kernel.
  apply steps_bind; [apply _|intros w; simpl; reflexivity|]. intros strm.
  eapply (steps_bind_post _ (fun p => p = data_ptr (_cuRANDGenerator._state
                                                     (Generator._bit_generator self)))).
  { intros w. rewrite state_keeps_world. reflexivity. }
  { apply state_value. }
  intros p ->. destruct (_ =? 0).
  - by apply Hcall.
  - apply steps_bind; [apply _|by apply steps_lift|]. intros chunks.
    apply steps_for_each; [apply _|apply _|]. intros i.
    eapply (steps_bind_post _ (fun chunk => nd_alloc chunk = nd_alloc out)).
    { by apply steps_lift. }
    { intros w a. unfold lift. simpl. apply getitem_from_alloc. }
    intros chunk Hchunk. by apply Hcall.
Qed.

(** ** Sampling into a fresh buffer *)

(** Allocation of the output buffer followed by the dispatch on it, where
    both are sure to succeed. *)
Lemma fresh_dispatch_fills self func args cargs d0 rest d w :
  let bg := Generator._bit_generator self in
  let shape := d0 :: rest in
  let y := fresh_array shape d w in
  let w1 := allocated shape d Uninitialised w in
  Forall (fun n => 0 <= n) shape ->
  device_ok self w ->
  0 <= _cuRANDGenerator.state_size bg ->
  (nd_alloc (_cuRANDGenerator._state bg) < length (heap w))%nat ->
  coerce_args (extra_params func) args = Ok cargs ->
  exists w2 samples,
    Generator._launch_distribution_kernel self func y args w1 = (Ok tt, w2)
    /\ heap w2 !! nd_alloc y = Some (mk_allocation d samples)
    /\ length samples = Z.to_nat (prod_shape shape)
    /\ Forall (written_since (length (trace w))) samples
    /\ read y (heap w2) = samples
    /\ length (heap w2) = Datatypes.S (length (heap w))
    /\ (forall i, (i < length (heap w))%nat ->
                  i <> nd_alloc (_cuRANDGenerator._state bg) ->
                  heap w2 !! i = heap w !! i).
Proof.
  intros bg shape y w1 Hshape Hdev HS Hstate Hargs.
  set (cell := mk_allocation d (replicate (Z.to_nat (prod_shape shape)) Garbage)).
  assert (heap w1 !! nd_alloc y = Some cell) as Hcell.
  { simpl. rewrite lookup_app_r by done. by rewrite Nat.sub_diag. }
  assert (0 <= d0) as Hd0 by (by inversion Hshape).
  destruct (dispatch_fills self func y args cargs d0 rest cell w1)
    as (w2 & al2 & Hrun & Hal2 & Hlen2 & Hall & Hkept); try done.
  { simpl. by rewrite length_replicate. }
  { unfold y, bg in *. simpl. lia. }
  destruct (Hkept _ _ Hcell) as (al2' & Hal2' & Hd2 & _).
  assert (al2' = al2) as -> by congruence.
  assert (al2 = mk_allocation d (a_data al2)) as Eal2.
  { destruct al2 as [d2 data2]. simpl in *. by subst. }
  pose proof (steps_dispatch self func y args w1) as [Hlen Hother].
  rewrite Hrun in Hlen, Hother. simpl in Hlen, Hother.
  exists w2, (a_data al2). split; [done|]. split; [by rewrite Hal2, Eal2 at 1|].
  split; [by rewrite Hlen2; simpl; rewrite length_replicate|].
  split.
  { eapply Forall_impl; [exact Hall|]. intros v. apply written_since_mono.
    simpl. rewrite length_app. lia. }
  split.
  { apply read_whole; [done|done|]. rewrite Hlen2. simpl.
    by rewrite length_replicate. }
  split.
  { rewrite Hlen, length_app. simpl. lia. }
  intros i Hi Hne. rewrite Hother.
  - by rewrite lookup_app_l.
  - fold bg. intros [|Hy]; [done|]. simpl in Hy. lia.
Qed.

Lemma read_app_l a h cell :
  (nd_alloc a < length h)%nat -> read a (h ++ [cell]) = read a h.
Proof. intros H. unfold read. by rewrite lookup_app_l. Qed.

(** The tail that both branches of [integers] share. *)
Lemma shifted_sampling self func args cargs low d0 rest d w :
  let bg := Generator._bit_generator self in
  let shape := d0 :: rest in
  let y := fresh_array shape d w in
  Forall (fun n => 0 <= n) shape ->
  device_ok self w ->
  0 <= _cuRANDGenerator.state_size bg ->
  (nd_alloc (_cuRANDGenerator._state bg) < length (heap w))%nat ->
  coerce_args (extra_params func) args = Ok cargs ->
  exists w' samples,
    (y <- ndarray_new shape d Uninitialised ;;
     Generator._launch_distribution_kernel self func y args ;;;
     add_scalar low y) w
    = (Ok (mk_ndarray (Datatypes.S (length (heap w))) 0 shape d), w')
    /\ length samples = Z.to_nat (prod_shape shape)
    /\ Forall (written_since (length (trace w))) samples
    /\ read y (heap w') = samples
    /\ read (mk_ndarray (Datatypes.S (length (heap w))) 0 shape d) (heap w')
       = (Plus low <$> samples).
Proof.
  intros bg shape y Hshape Hdev HS Hstate Hargs.
  destruct (fresh_dispatch_fills self func args cargs d0 rest d w
              Hshape Hdev HS Hstate Hargs)
    as (w2 & samples & Hrun & Hy & Hlen & Hall & Hread & Hheap & _).
  fold shape y in Hrun, Hy, Hread.
  set (r := mk_ndarray (Datatypes.S (length (heap w))) 0 shape d).
  assert (fresh_array shape d w2 = r) as Hr.
  { unfold fresh_array, r. by rewrite Hheap. }
  set (cell := mk_allocation d (replicate (Z.to_nat (prod_shape shape)) Garbage)).
  assert (read y (heap w2 ++ [cell]) = samples) as Hread3.
  { rewrite read_app_l; [done|]. simpl. lia. }
  eexists. exists samples. split; [|split; [done|split; [done|split]]].
  - unfold bind at 1. rewrite ndarray_new_ok by done. fold y.
    unfold bind at 1. rewrite Hrun.
    unfold add_scalar, bind. change (nd_shape y) with shape.
    change (nd_dtype y) with d. rewrite ndarray_new_ok by done. rewrite Hr.
    reflexivity.
  - cbn [heap set_heap allocated log]. change (initial Uninitialised) with Garbage.
    fold cell. rewrite Hread3.
    rewrite read_store_other; [done|]. simpl. lia.
  - cbn [heap set_heap allocated log]. change (initial Uninitialised) with Garbage.
    fold cell. rewrite Hread3.
    apply (read_store r _ _ cell).
    + simpl. rewrite lookup_app_r by lia. rewrite Hheap, Nat.sub_diag. done.
    + rewrite length_fmap, Hlen. done.
    + rewrite length_fmap, Hlen. simpl. rewrite length_replicate.
      change (foldr Z.mul 1 rest) with (prod_shape rest).
      change (prod_shape shape) with (d0 * prod_shape rest). lia.
Qed.

Lemma coerce_args_interval_32_ok diff :
  0 <= diff <= _UINT32_MAX ->
  coerce_args (extra_params interval_32) [PyInt diff; PyInt (mask_of diff)]
  = Ok [CUInt32 diff; CUInt32 (mask_of diff)].
Proof.
  intros Hd. unfold _UINT32_MAX in Hd.
  pose proof (abs_le_mask_of diff). pose proof (mask_of_least diff 32).
  unfold coerce_args. simpl. unfold to_uint32_t, to_unsigned.
  destruct (Z.leb_spec 0 diff), (Z.ltb_spec diff (2 ^ 32)); try lia.
  destruct (Z.leb_spec 0 (mask_of diff)), (Z.ltb_spec (mask_of diff) (2 ^ 32));
    try lia. done.
Qed.

Lemma coerce_args_interval_64_ok diff :
  0 <= diff <= _UINT64_MAX ->
  coerce_args (extra_params interval_64) [PyInt diff; PyInt (mask_of diff)]
  = Ok [CUInt64 diff; CUInt64 (mask_of diff)].
Proof.
  intros Hd. unfold _UINT64_MAX in Hd.
  pose proof (abs_le_mask_of diff). pose proof (mask_of_least diff 64).
  unfold coerce_args. simpl. unfold to_uint64_t, to_unsigned.
  destruct (Z.leb_spec 0 diff), (Z.ltb_spec diff (2 ^ 64)); try lia.
  destruct (Z.leb_spec 0 (mask_of diff)), (Z.ltb_spec (mask_of diff) (2 ^ 64));
    try lia. done.
Qed.

(** X5.  For a width [diff] between 0 and [2^64 - 1], a shape with at
    least one axis, on the generator's own device (stream count [>= 0],
    state buffer allocated earlier), [integers] succeeds.  It samples into
    a fresh buffer [y], of type [uint32] when [diff <= 2^32 - 1] and
    [uint64] otherwise, and returns a second fresh array, of the same
    shape and type, whose elements are [low] plus the elements of [y];
    every element of [y] was written by a kernel invocation of this
    call. *)
Theorem integers_returns_low_plus_samples (self : Generator.t) (low high d0 : Z)
    (rest : list Z) (dtype : dtype) (endpoint : bool) (w : World) :
  let bg := Generator._bit_generator self in
  let diff := diff_of low high endpoint in
  let dt := if diff <=? _UINT32_MAX then uint32 else uint64 in
  let shape := d0 :: rest in
  let y := fresh_array shape dt w in
  let r := mk_ndarray (Datatypes.S (length (heap w))) 0 shape dt in
  0 <= diff <= _UINT64_MAX ->
  Forall (fun n => 0 <= n) shape ->
  device_ok self w ->
  0 <= _cuRANDGenerator.state_size bg ->
  (nd_alloc (_cuRANDGenerator._state bg) < length (heap w))%nat ->
  exists w' samples,
    Generator.integers self low high (Some shape) dtype endpoint w = (Ok r, w')
    /\ length samples = Z.to_nat (prod_shape shape)
    /\ Forall (written_since (length (trace w))) samples
    /\ read y (heap w') = samples
    /\ read r (heap w') = (Plus low <$> samples).
Proof.
  intros bg diff dt shape y r Hdiff Hshape Hdev HS Hstate.
  unfold dt, y, r. destruct (Z.leb_spec diff _UINT32_MAX) as [H32|H32].
  - rewrite integers_32 by (fold diff; lia).
    apply (shifted_sampling self interval_32 _ [CUInt32 diff; CUInt32 (mask_of diff)]);
      try done.
    apply coerce_args_interval_32_ok. lia.
  - rewrite integers_64 by (fold diff; lia).
    apply (shifted_sampling self interval_64 _ [CUInt64 diff; CUInt64 (mask_of diff)]);
      try done.
    by apply coerce_args_interval_64_ok.
Qed.

Lemma integers_returns_low_plus_samples_witness :
  exists w',
    Generator.integers (Example.gen 4) 10 20 (Some [3]) int32 false (Example.world 4)
    = (Ok (mk_ndarray 2 0 [3] uint32), w')
    /\ read (mk_ndarray 2 0 [3] uint32) (heap w')
       = (Plus 10 <$> read (mk_ndarray 1 0 [3] uint32) (heap w')).
Proof.
  destruct (integers_returns_low_plus_samples (Example.gen 4) 10 20 3 [] int32 false
              (Example.world 4))
    as (w' & samples & Hrun & _ & _ & Hy & Hr);
    [by vm_compute|repeat constructor; lia|reflexivity|by vm_compute|vm_compute; lia|].
  exists w'. split; [exact Hrun|]. simpl in Hy, Hr. rewrite Hr.
  f_equal. symmetry. exact Hy.
Defined.

Lemma respects_beta_arguments self a b size dtype :
  respects (fun e => lock_free e
                     /\ forall l, e = KernelCall l ->
                          exists s, launch_ok self cupy_distributions.beta [a; b] s l)
           (Generator.beta self a b size dtype).
Proof.
  unfold Generator.beta.
  apply respects_bind; [by apply respects_ndarray_new|]. intros y.
  apply respects_bind; [|intros _; apply respects_ret].
  eapply respects_mono; [|apply respects__launch_distribution_kernel].
  intros e (l & -> & s & Hl). split; [done|]. intros l' [= <-]. by exists s.
Qed.

(** X6.  [beta] with float parameters [a] and [b], a shape with at least
    one axis, on the generator's own device (stream count [>= 0], state
    buffer allocated earlier) succeeds and returns a buffer that did not
    exist before, every element of which was written by a kernel
    invocation of this call.  Whatever the shape and the device, every
    kernel it invokes is the beta kernel, on the state buffer and with the
    algorithm tag of its bit generator, and receives [a] and [b] as they
    were passed. *)
Theorem beta_fills_fresh_buffer :
  (forall self a b size dtype w,
     Forall (fun l => k_func l = cupy_distributions.beta
                      /\ k_args l = [CDouble (PyFloat a); CDouble (PyFloat b)]
                      /\ k_state l
                         = data_ptr (_cuRANDGenerator._state
                                       (Generator._bit_generator self))
                      /\ k_generator l
                         = generator (_cuRANDGenerator.class
                                        (Generator._bit_generator self)))
            (launches (new_events
                         (Generator.beta self (PyFloat a) (PyFloat b) size dtype) w)))
  /\ (forall self a b d0 rest dtype w,
        let shape := d0 :: rest in
        let y := fresh_array shape dtype w in
        Forall (fun n => 0 <= n) shape ->
        device_ok self w ->
        0 <= _cuRANDGenerator.state_size (Generator._bit_generator self) ->
        (nd_alloc (_cuRANDGenerator._state (Generator._bit_generator self))
         < length (heap w))%nat ->
        exists w' samples,
          Generator.beta self (PyFloat a) (PyFloat b) (Some shape) dtype w = (Ok y, w')
          /\ heap w !! nd_alloc y = None
          /\ length samples = Z.to_nat (prod_shape shape)
          /\ Forall (written_since (length (trace w))) samples
          /\ read y (heap w') = samples).
Proof.
  split.
  - intros self a b size dtype w.
    eapply Forall_launches;
      [apply new_events_respects, respects_beta_arguments|].
    intros l [_ H]. destruct (H l eq_refl) as (s & Hf & Hg & Hs & _ & Hc).
    simpl in Hc. injection Hc as <-. done.
  - intros self a b d0 rest dtype w shape y Hshape Hdev HS Hstate. subst shape y.
    destruct (fresh_dispatch_fills self cupy_distributions.beta
                [PyFloat a; PyFloat b] [CDouble (PyFloat a); CDouble (PyFloat b)]
                d0 rest dtype w Hshape Hdev HS Hstate eq_refl)
      as (w2 & samples & Hrun & _ & Hlen & Hall & Hread & _).
    exists w2, samples. split; [|split; [|done]].
    + unfold Generator.beta. unfold bind at 1. simpl shape_arg.
      rewrite ndarray_new_ok by done. unfold bind at 1. by rewrite Hrun.
    + apply lookup_ge_None. simpl. lia.
Qed.

Lemma beta_fills_fresh_buffer_witness :
  exists w',
    Generator.beta (Example.gen 2) (PyFloat 1) (PyFloat 2) (Some [5]) float64
                   (Example.world 2)
    = (Ok (mk_ndarray 1 0 [5] float64), w')
    /\ length (read (mk_ndarray 1 0 [5] float64) (heap w')) = 5%nat.
Proof.
  destruct (proj2 beta_fills_fresh_buffer (Example.gen 2) 1 2 5 [] float64
              (Example.world 2))
    as (w' & samples & Hrun & _ & Hlen & _ & Hread);
    [repeat constructor; lia|reflexivity|by vm_compute|vm_compute; lia|].
  exists w'. split; [exact Hrun|].
  transitivity (length samples); [exact (f_equal length Hread)|exact Hlen].
Defined.

(** ** Zero-dimensional output *)

(** X7.  With [size=None] the output array has no axis and one element.
    On the generator's own device, with arguments the kernel accepts: a
    generator with stream count 0 fills it with one launch of size 1; with
    any other stream count the dispatcher computes one chunk, fails with
    [IndexError] when it slices the array for it, and invokes no kernel.
    So [beta] and [standard_exponential] without [size] end in
    [IndexError], leaving only the buffer they allocated. *)
Theorem dispatch_zero_dimensional (self : Generator.t) (w : World) :
  let bg := Generator._bit_generator self in
  let S := _cuRANDGenerator.state_size bg in
  device_ok self w ->
  (forall func out args cargs,
     nd_shape out = [] ->
     coerce_args (extra_params func) args = Ok cargs ->
     Generator._launch_distribution_kernel self func out args w
     = if S =? 0
       then (Ok tt, after_launch
                      (mk_launch func (generator (_cuRANDGenerator.class bg))
                         (data_ptr (_cuRANDGenerator._state bg)) (data_ptr out) 1
                         (current_stream w) cargs) w)
       else (Raise IndexError, w))
  /\ (S <> 0 ->
      (forall a b dtype,
         Generator.beta self (PyFloat a) (PyFloat b) None dtype w
         = (Raise IndexError, allocated [] dtype Uninitialised w))
      /\ (forall dtype method out,
            method <> "zig"%string ->
            Generator.standard_exponential self None dtype method out w
            = (Raise IndexError, allocated [] dtype Uninitialised w))).
Proof.
  intros bg S Hdev.
  assert (forall func out args cargs w0,
            device_ok self w0 ->
            nd_shape out = [] ->
            coerce_args (extra_params func) args = Ok cargs ->
            S <> 0 ->
            Generator._launch_distribution_kernel self func out args w0
            = (Raise IndexError, w0)) as Hfail.
  { intros func out args cargs w0 Hdev0 Hshape Hargs HS.
    unfold Generator._launch_distribution_kernel.
    unfold bind at 1. unfold get_current_stream_ptr at 1.
    unfold bind at 1. rewrite (state_ok _ _ Hdev0). fold bg S.
    destruct (Z.eqb_spec S 0) as [|_]; [done|].
    unfold bind at 1. unfold floordiv, lift at 1.
    destruct (Z.eqb_spec S 0) as [|_]; [done|].
    unfold nd_size. rewrite Hshape. simpl prod_shape.
    replace (1 + S - 1) with (1 * S) by lia. rewrite Z.div_mul by done.
    simpl. unfold bind, lift, getitem_from. by rewrite Hshape. }
  split.
  - intros func out args cargs Hshape Hargs.
    destruct (Z.eqb_spec S 0) as [E0|E0].
    + rewrite (dispatch_single self func out args cargs w Hdev E0 Hargs).
      unfold launch_of, nd_size. by rewrite Hshape.
    + by apply (Hfail func out args cargs).
  - intros HS. split.
    + intros a b dtype. unfold Generator.beta. unfold bind at 1. simpl shape_arg.
      rewrite ndarray_new_ok by constructor. unfold bind at 1.
      by rewrite (Hfail _ _ _ [CDouble (PyFloat a); CDouble (PyFloat b)]).
    + intros dtype method out Hm. unfold Generator.standard_exponential.
      destruct (String.eqb_spec method "zig"); [done|].
      unfold bind at 1. simpl shape_arg.
      rewrite ndarray_new_ok by constructor. unfold bind at 1.
      by rewrite (Hfail _ _ _ []).
Qed.

Lemma dispatch_zero_dimensional_witness :
  Generator.beta (Example.gen 2) (PyFloat 1) (PyFloat 2) None float64 (Example.world 2)
  = (Raise IndexError, allocated [] float64 Uninitialised (Example.world 2)).
Proof.
  destruct (dispatch_zero_dimensional (Example.gen 2) (Example.world 2) eq_refl)
    as [_ H].
  destruct H as [Hbeta _]; [by vm_compute|]. apply Hbeta.
Defined.

(** ** Buffers a sampling call does not own *)

Lemma keeps_ret {A} n0 i (Q : A -> Prop) a : Q a -> keeps n0 i Q (ret a).
Proof. intros HQ w Hn. simpl. split; [done|]. split; [done|]. by intros a' [= <-]. Qed.

Lemma keeps_bind {A B} n0 i (Q : A -> Prop) (Q' : B -> Prop)
    (m : M A) (k : A -> M B) :
  keeps n0 i Q m -> (forall a, Q a -> keeps n0 i Q' (k a)) ->
  keeps n0 i Q' (bind m k).
Proof.
  intros Hm Hk w Hn. unfold bind. destruct (Hm w Hn) as (Hn1 & Hi1 & HQ).
  destruct (m w) as [[a|e] w1]; simpl in *; [|done].
  destruct (Hk a (HQ a eq_refl) w1 Hn1) as (Hn2 & Hi2 & HQ').
  split; [done|]. split; [congruence|done].
Qed.

Lemma keeps_ndarray_new n0 i shape d f :
  (i < n0)%nat ->
  keeps n0 i (fun y => (n0 <= nd_alloc y)%nat /\ nd_off y = 0) (ndarray_new shape d f).
Proof.
  intros Hi w Hn. unfold ndarray_new. destruct (existsb _ _); [done|].
  unfold bind, device_alloc, ret. simpl. rewrite length_app.
  split; [lia|]. split; [by rewrite lookup_app_l by lia|]. by intros a [= <-].
Qed.

Lemma keeps_dispatch n0 i self func out args :
  i <> nd_alloc (_cuRANDGenerator._state (Generator._bit_generator self)) ->
  i <> nd_alloc out ->
  keeps n0 i (fun _ => True) (Generator._launch_distribution_kernel self func out args).
Proof.
  intros Hs Ho w Hn. destruct (steps_dispatch self func out args w) as [Hlen Hother].
  split; [lia|]. split; [|done]. apply Hother. intros [|]; done.
Qed.

Lemma keeps_setitem_ellipsis n0 i out y :
  i <> nd_alloc out -> keeps n0 i (fun _ => True) (setitem_ellipsis out y).
Proof.
  intros Ho w Hn. unfold setitem_ellipsis.
  destruct (broadcast_to _ _ _); simpl; [|done].
  unfold store. rewrite length_alter. split; [done|]. split; [|done].
  by rewrite list_lookup_alter_ne.
Qed.

Lemma keeps_add_scalar n0 i low y :
  (i < n0)%nat -> keeps n0 i (fun _ => True) (add_scalar low y).
Proof.
  intros Hi. unfold add_scalar.
  eapply keeps_bind; [by apply keeps_ndarray_new|].
  intros r [Hr _] w Hn. simpl. unfold store. rewrite length_alter.
  split; [done|]. split; [|done]. rewrite list_lookup_alter_ne; [done|].
  simpl. lia.
Qed.

Lemma keeps_perform self r n0 i :
  (i < n0)%nat ->
  i <> nd_alloc (_cuRANDGenerator._state (Generator._bit_generator self)) ->
  destination r <> Some i ->
  keeps n0 i (fun _ => True) (perform self r).
Proof.
  intros Hi Hs Hd.
  assert (forall func args shape d (k : ndarray -> M ndarray),
            (forall y, (n0 <= nd_alloc y)%nat -> keeps n0 i (fun _ => True) (k y)) ->
            keeps n0 i (fun _ => True)
              (y <- ndarray_new shape d Uninitialised ;;
               Generator._launch_distribution_kernel self func y args ;;;
               k y)) as Hpattern.
  { intros func args shape d k Hk.
    eapply keeps_bind; [by apply keeps_ndarray_new|]. intros y [Hy _].
    eapply keeps_bind; [apply keeps_dispatch; [done|lia]|]. intros _ _. by apply Hk. }
  destruct r as [low high size dtype endpoint|a b size dtype|size dtype method out];
    simpl.
  - rewrite integers_unfold. cbv zeta.
    eapply (keeps_bind _ _ (fun _ => True)).
    { intros w' Hn. done. }
    intros mask _. eapply (keeps_bind _ _ (fun _ => True)).
    { intros w' Hn. repeat case_match; done. }
    intros dt _.
    eapply keeps_bind; [by apply keeps_ndarray_new|]. intros y [Hy _].
    eapply keeps_bind.
    { destruct (decide _); (apply keeps_dispatch; [done|lia]). }
    intros _ _. by apply keeps_add_scalar.
  - apply Hpattern. intros y Hy. by apply keeps_ret.
  - unfold Generator.standard_exponential.
    destruct (String.eqb method "zig"); [intros w' Hn; done|].
    apply Hpattern. intros y Hy. destruct out as [out0|]; [|by apply keeps_ret].
    eapply keeps_bind; [|intros _ _; by apply keeps_ret].
    apply keeps_setitem_ellipsis. simpl in Hd. congruence.
Qed.

(** X8.  A sampling call changes no device buffer but the ones it owns:
    for every request, every allocation that existed before the call and
    is neither the state buffer of the bit generator nor the destination
    named in the request holds after the call, successful or not, exactly
    what it held before; and no allocation is released. *)
Theorem sampling_leaves_other_buffers (self : Generator.t) (r : request)
    (w : World) (i : nat) :
  (i < length (heap w))%nat ->
  i <> nd_alloc (_cuRANDGenerator._state (Generator._bit_generator self)) ->
  destination r <> Some i ->
  heap (perform self r w).2 !! i = heap w !! i
  /\ (length (heap w) <= length (heap (perform self r w).2))%nat.
Proof.
  intros Hi Hs Hd.
  destruct (keeps_perform self r (length (heap w)) i Hi Hs Hd w (le_n _))
    as (Hlen & Hlook & _).
  done.
Qed.

Lemma sampling_leaves_other_buffers_witness :
  heap (perform (Example.gen 2) (Beta (PyFloat 1) (PyFloat 2) (Some [3]) float64)
          (Example.world_out 2 [5])).2 !! 1%nat
  = Some (mk_allocation float64 (replicate 5 Garbage)).
Proof.
  destruct (sampling_leaves_other_buffers (Example.gen 2)
              (Beta (PyFloat 1) (PyFloat 2) (Some [3]) float64)
              (Example.world_out 2 [5]) 1) as [H _];
    [vm_compute; lia|by vm_compute|done|].
  rewrite H. reflexivity.
Defined.

(** ** Construction, in general *)

Lemma construction_run ext c seed size w :
  0 <= size -> _type_size ext c * size < 2 ^ 63 ->
  0 <= generate_state ext seed < 2 ^ 64 ->
  _cuRANDGenerator.__init__ ext c seed size w
  = (Ok (constructed ext c seed size w), after_construction ext c seed size w).
Proof.
  intros Hsize Hfit Hseed.
  pose proof (_type_size_pos ext c) as Hpos.
  set (b_size := _type_size ext c * size).
  assert (0 <= b_size) as Hb by (unfold b_size; nia).
  assert (size <= b_size) as Hle by (unfold b_size; nia).
  unfold _cuRANDGenerator.__init__.
  unfold bind at 1. unfold BitGenerator.__init__ at 1.
  unfold bind at 1, threading_Lock at 1. unfold bind at 1, Device_id at 1.
  unfold ret at 1. cbn [BitGenerator._seed_seq].
  unfold bind at 1. fold b_size. rewrite to_ssize_t_ok by lia. unfold lift at 1.
  unfold bind at 1. unfold cupy_zeros.
  rewrite ndarray_new_ok by (repeat constructor; lia).
  unfold bind at 1, lift at 1. rewrite to_uint64_t_ok by done.
  unfold bind at 1, get_current_stream_ptr at 1.
  unfold bind at 1, lift at 1.
  unfold bind at 1, lift at 1. rewrite to_ssize_t_ok by lia.
  unfold bind at 1, init_curand_generator, ret. reflexivity.
Qed.

Lemma construction_result ext c seed size w g w' :
  _cuRANDGenerator.__init__ ext c seed size w = (Ok g, w') ->
  g = constructed ext c seed size w /\ w' = after_construction ext c seed size w.
Proof.
  intros Hrun.
  destruct (construction_succeeds_only_if ext c seed size w g) as (H1 & H2 & H3).
  { by rewrite Hrun. }
  rewrite construction_run in Hrun by done. by injection Hrun as <- <-.
Qed.

(** X9.  A stream count that is negative, or so large that the state
    buffer would have [2^63] bytes or more, makes the construction fail
    before anything is allocated and before the initialisation kernel is
    called: with [OverflowError] when the byte count does not fit
    [ssize_t], and with the [ValueError] of a negative dimension
    otherwise.  The heap and the log are as before; only the lock of the
    base class has been created. *)
Theorem construction_rejects_stream_count (ext : externals) (c : bitgen_class)
    (seed : option (list Z)) (size : Z) (w : World) :
  let b_size := _type_size ext c * size in
  size < 0 \/ 2 ^ 63 <= b_size ->
  exists w',
    _cuRANDGenerator.__init__ ext c seed size w
    = (Raise (if (- 2 ^ 63 <=? b_size) && (b_size <? 2 ^ 63)
              then ValueError_negative_dimensions else OverflowError), w')
    /\ heap w' = heap w /\ trace w' = trace w
    /\ locks w' = S (locks w).
Proof.
  intros b_size Hbad.
  pose proof (_type_size_pos ext c) as Hpos.
  unfold _cuRANDGenerator.__init__, BitGenerator.__init__, cupy_zeros, ndarray_new,
    bind, lift, threading_Lock, Device_id, ret, raise, to_ssize_t.
  cbn [BitGenerator._seed_seq existsb]. fold b_size.
  destruct (Z.leb_spec (- 2 ^ 63) b_size), (Z.ltb_spec b_size (2 ^ 63));
    cbn [andb]; try (eexists; split; [reflexivity|done]).
  destruct (Z.ltb_spec b_size 0); cbn [orb].
  - eexists; split; [reflexivity|done].
  - unfold b_size in *. nia.
Qed.

Lemma construction_rejects_stream_count_witness :
  exists w',
    _cuRANDGenerator.__init__ Example.ext XORWOW None (-1) Example.w0
    = (Raise ValueError_negative_dimensions, w')
    /\ heap w' = heap Example.w0 /\ trace w' = trace Example.w0
    /\ locks w' = S (locks Example.w0).
Proof.
  exact (construction_rejects_stream_count Example.ext XORWOW None (-1) Example.w0
           (or_introl eq_refl)).
Defined.

(** X10.  Construction and sampling agree on the state: when the
    construction of a bit generator succeeds, the initialisation kernel was
    called once, on a buffer allocated by this construction, and every
    kernel any later sampling call on that generator invokes, in whatever
    world, receives the same algorithm tag and the same state pointer as
    the initialisation kernel did.  The generator remembers the stream
    count and the device it was built with. *)
Theorem sampling_uses_constructed_state (ext : externals) (c : bitgen_class)
    (seed : option (list Z)) (size : Z) (w : World) (g : _cuRANDGenerator.t)
    (w' : World) :
  _cuRANDGenerator.__init__ ext c seed size w = (Ok g, w') ->
  exists tag p s,
    filter is_init (new_events (_cuRANDGenerator.__init__ ext c seed size) w)
    = [InitCall tag p s size (current_stream w)]
    /\ p_alloc p = length (heap w)
    /\ length (heap w') = S (length (heap w))
    /\ _cuRANDGenerator.state_size g = size
    /\ device_ok (Generator.mk g) w'
    /\ forall r w2 l,
         KernelCall l ∈ new_events (perform (Generator.mk g) r) w2 ->
         k_generator l = tag /\ k_state l = p.
Proof.
  intros Hrun. destruct (construction_result _ _ _ _ _ _ _ Hrun) as [-> ->].
  exists (generator c), (mk_devptr (length (heap w)) 0), (generate_state ext seed).
  split; [|split; [done|split; [|split; [done|split; [done|]]]]].
  - erewrite new_events_of; [|rewrite Hrun; cbn [snd]; unfold after_construction,
      allocated; simpl; rewrite <- app_assoc; reflexivity].
    reflexivity.
  - unfold after_construction, allocated, touch. simpl.
    rewrite length_alter, length_app. simpl. lia.
  - intros r w2 l Hin.
    pose proof (new_events_respects _ _ w2
                  (respects_perform (Generator.mk (constructed ext c seed size w)) r))
      as Hall.
    rewrite Forall_forall in Hall. exact (Hall _ Hin).
Qed.

Lemma sampling_uses_constructed_state_witness :
  exists tag p s,
    filter is_init
           (new_events (_cuRANDGenerator.__init__ Example.ext XORWOW (Some [1]) 2)
                       Example.w0)
    = [InitCall tag p s 2 (current_stream Example.w0)]
    /\ forall r w2 l,
         KernelCall l ∈ new_events (perform (Generator.mk (Example.bitgen 2)) r) w2 ->
         k_generator l = tag /\ k_state l = p.
Proof.
  destruct (sampling_uses_constructed_state Example.ext XORWOW (Some [1]) 2 Example.w0
              (Example.bitgen 2) (Example.world 2) eq_refl)
    as (tag & p & s & H1 & _ & _ & _ & _ & H2).
  exists tag, p, s. split; [exact H1|exact H2].
Defined.

(** ** Two generators *)

(** X11.  Bit generators do not share anything: of two generators built
    one after the other, the second has another lock and another state
    buffer than the first, and no sampling call on the second changes the
    state buffer of the first (unless that buffer is handed in as the
    destination). *)
Theorem generators_do_not_share_state (ext : externals) (c1 c2 : bitgen_class)
    (seed1 seed2 : option (list Z)) (size1 size2 : Z)
    (w w1 w1' w2 : World) (g1 g2 : _cuRANDGenerator.t) :
  _cuRANDGenerator.__init__ ext c1 seed1 size1 w = (Ok g1, w1) ->
  (length (heap w1) <= length (heap w1'))%nat ->
  (locks w1 <= locks w1')%nat ->
  _cuRANDGenerator.__init__ ext c2 seed2 size2 w1' = (Ok g2, w2) ->
  let s1 := nd_alloc (_cuRANDGenerator._state g1) in
  BitGenerator.lock (_cuRANDGenerator.base g1)
  <> BitGenerator.lock (_cuRANDGenerator.base g2)
  /\ s1 <> nd_alloc (_cuRANDGenerator._state g2)
  /\ forall r w3,
       (s1 < length (heap w3))%nat ->
       destination r <> Some s1 ->
       heap (perform (Generator.mk g2) r w3).2 !! s1 = heap w3 !! s1.
Proof.
  intros H1 Hheap Hlocks H2 s1.
  destruct (construction_result _ _ _ _ _ _ _ H1) as [-> ->].
  destruct (construction_result _ _ _ _ _ _ _ H2) as [-> ->].
  assert (length (heap (after_construction ext c1 seed1 size1 w))
          = S (length (heap w))) as Hlen.
  { unfold after_construction, allocated, touch. simpl.
    rewrite length_alter, length_app. simpl. lia. }
  assert (locks (after_construction ext c1 seed1 size1 w) = S (locks w)) as Hl by done.
  subst s1. simpl in *.
  split; [lia|]. split; [lia|].
  intros r w3 Hin Hd.
  destruct (keeps_perform (Generator.mk (constructed ext c2 seed2 size2 w1')) r
              (length (heap w3)) (length (heap w)) Hin ltac:(simpl; lia) Hd
              w3 (le_n _)) as (_ & Hlook & _).
  exact Hlook.
Qed.

Lemma generators_do_not_share_state_witness :
  heap (perform (Generator.mk (constructed Example.ext MRG32k3a None 3 (Example.world 2)))
          (Beta (PyFloat 1) (PyFloat 2) (Some [4]) float64)
          (after_construction Example.ext MRG32k3a None 3 (Example.world 2))).2 !! 0%nat
  = Some (mk_allocation int8 (replicate 96 Opaque)).
Proof.
  destruct (generators_do_not_share_state Example.ext XORWOW MRG32k3a (Some [1]) None
              2 3 Example.w0 (Example.world 2) (Example.world 2)
              (after_construction Example.ext MRG32k3a None 3 (Example.world 2))
              (Example.bitgen 2)
              (constructed Example.ext MRG32k3a None 3 (Example.world 2))
              eq_refl (le_n _) (le_n _) eq_refl) as (_ & _ & H).
  rewrite H; [reflexivity|vm_compute; lia|done].
Defined.

(** ** The range check of [integers] *)

(** X12.  The range check of lines 122-128 can never fail: no call of
    [integers], whatever its arguments and the world, ends in the
    [ValueError] of line 127.  A width whose magnitude exceeds [2^64 - 1],
    positive or negative, is refused earlier, with [OverflowError], where
    the mask is stored in a [uint64_t]; nothing is allocated and nothing
    is launched. *)
Theorem integers_range_check_is_dead (self : Generator.t) (low high : Z)
    (size : option (list Z)) (dtype : dtype) (endpoint : bool) (w : World) :
  (forall actual,
     (Generator.integers self low high size dtype endpoint w).1
     <> Raise (ValueError_uint64_range actual))
  /\ (_UINT64_MAX < Z.abs (diff_of low high endpoint) ->
      Generator.integers self low high size dtype endpoint w = (Raise OverflowError, w)).
Proof.
  split.
  - intros actual. apply integers_never_ValueError.
  - apply integers_overflow.
Qed.

Lemma integers_range_check_is_dead_witness :
  Generator.integers (Example.gen 2) (2 ^ 70) 0 None int32 true (Example.world 2)
  = (Raise OverflowError, Example.world 2).
Proof.
  apply (integers_range_check_is_dead (Example.gen 2) (2 ^ 70) 0 None int32 true
           (Example.world 2)).
  by vm_compute.
Defined.

(** ** The launches for an array of several axes *)

Lemma launches_KernelCall ls : launches (KernelCall <$> ls) = ls.
Proof.
  induction ls as [|l ls IH]; [done|].
  change (l :: launches (KernelCall <$> ls) = l :: ls). by rewrite IH.
Qed.

(** X13.  The chunks are cut along the first axis, their number is
    computed from the number of elements: for an array of shape
    [d0 :: rest] with [R] elements per row and a stream count [S > 0], the
    dispatcher issues [(d0 * R + S - 1) // S] invocations, and invocation
    [i] covers the rows from [min(i * S, d0)] to the last, that is
    [(d0 - min(i * S, d0)) * R] elements from offset [min(i * S, d0) * R]
    on. *)
Theorem dispatch_plan_rows (self : Generator.t) (func : kernel) (out : ndarray)
    (args : list pyobj) (cargs : list cvalue) (d0 : Z) (rest : list Z) (w : World) :
  let S := _cuRANDGenerator.state_size (Generator._bit_generator self) in
  let R := prod_shape rest in
  0 < S ->
  nd_shape out = d0 :: rest ->
  device_ok self w ->
  coerce_args (extra_params func) args = Ok cargs ->
  (Generator._launch_distribution_kernel self func out args w).1 = Ok tt
  /\ chunk_plan (new_events (Generator._launch_distribution_kernel self func out args) w)
     = (fun i => (nd_off out + Z.min (i * S) d0 * R, (d0 - Z.min (i * S) d0) * R))
       <$> range ((d0 * R + S - 1) / S).
Proof.
  intros S R HS Hshape Hdev Hargs.
  assert (nd_size out = d0 * R) as Hsize.
  { unfold nd_size. by rewrite Hshape. }
  pose proof (dispatch_chunks self func out args cargs d0 rest w Hdev Hshape) as Hrun.
  cbv zeta in Hrun. fold S in Hrun. rewrite Hsize in Hrun.
  specialize (Hrun ltac:(lia) Hargs).
  split; [by rewrite Hrun|].
  unfold chunk_plan. erewrite new_events_of;
    [|rewrite Hrun; cbn [snd]; apply trace_after_launches].
  rewrite launches_KernelCall, <- list_fmap_compose.
  apply Forall_fmap_ext_1, Forall_forall.
  intros i Hi. unfold range in Hi. apply elem_of_seqZ in Hi. simpl.
  assert (slice_start (i * S) d0 = Z.min (i * S) d0) as Hstart.
  { unfold slice_start. destruct (Z.ltb_spec (i * S) 0); [nia|done]. }
  unfold launch_of, slice_from, nd_size. simpl. by rewrite !Hstart.
Qed.

Lemma dispatch_plan_rows_witness :
  chunk_plan (new_events
                (Generator._launch_distribution_kernel (Example.gen 4)
                   cupy_distributions.beta (Example.out [2; 3]) Example.ab)
                (Example.world_out 4 [2; 3]))
  = [(0, 6); (6, 0)].
Proof.
  destruct (dispatch_plan_rows (Example.gen 4) cupy_distributions.beta
              (Example.out [2; 3]) Example.ab
              [CDouble (PyFloat 1); CDouble (PyFloat 2)] 2 [3]
              (Example.world_out 4 [2; 3])) as [_ H];
    [simpl; lia|reflexivity|reflexivity|reflexivity|].
  rewrite H. reflexivity.
Defined.
